(** * Koa: middleware composition, request and response facades, finalizer

    A shallow embedding of
    - [lib/koa-compose.js]: [compose] and its [dispatch] (module [Compose]);
    - [lib/request.js]: header lookup and the [path] and [querystring]
      accessors (module [Request]), with the URL parser and formatter they
      call;
    - [lib/response.js]: the status, body, type, length and header accessors
      and [redirect] (module [Response]);
    - [lib/application.js]: [createContext], [handleRequest] and [respond]
      (module [Application]).

    JavaScript values are first-order data. A promise is represented by the
    outcome it settles to, so a middleware that awaits [next()] sees what the
    downstream middleware came to. The objects the code mutates in place (the
    raw request and response, the facades' own fields, the cursor of one
    pipeline invocation) are fields of an explicit state that every operation
    takes and gives back. A setter that can throw gives back an [outcome].

    The first part of the file is the model, the second part what is proved
    of it. *)

From Stdlib Require Import ZArith String Ascii List Bool Lia Sorted.
From stdpp Require Import base option list strings gmap pretty.

Set Warnings "-register-all".

Local Open Scope string_scope.
Local Open Scope list_scope.
Local Open Scope Z_scope.

(** ** JavaScript values *)

(** The values that bodies, promise results and thrown errors range over.
    Numbers are integers (no fractional part, no NaN); a string is the
    sequence of bytes of its UTF-8 encoding; streams and other objects are
    known by reference. *)
Inductive value : Type :=
| VUndefined
| VNull
| VBool (b : bool)
| VNum (n : Z)
| VStr (s : string)
| VBuffer (bytes : list Byte.byte)
| VStream (id : nat)
| VObject (id : nat)
| VError (name message : string).

(** [!!v] *)
Definition truthy (v : value) : bool :=
  match v with
  | VUndefined | VNull => false
  | VBool b => b
  | VNum n => negb (n =? 0)
  | VStr s => negb (String.eqb s "")
  | VBuffer _ | VStream _ | VObject _ | VError _ _ => true
  end.

(** [null == v] *)
Definition nullish (v : value) : bool :=
  match v with
  | VUndefined | VNull => true
  | _ => false
  end.

(** [new TypeError(msg)] and [new Error(msg)] *)
Definition TypeError (msg : string) : value := VError "TypeError" msg.
Definition Error (msg : string) : value := VError "Error" msg.


(** ** Strings and numbers as JavaScript reads them *)

(** [c.toLowerCase()] on one byte, and [s.toLowerCase()] for strings of
    ASCII characters, as the names of header fields are: the letters A to Z
    change and every other byte stays (the platform lower-cases letters
    outside ASCII as well). *)
Definition lower_ascii (c : ascii) : ascii :=
  let n := nat_of_ascii c in
  if ((65 <=? n) && (n <=? 90))%nat then ascii_of_nat (n + 32) else c.

Fixpoint toLowerCase (s : string) : string :=
  match s with
  | EmptyString => EmptyString
  | String c s' => String (lower_ascii c) (toLowerCase s')
  end.

(** [!!s] for a string, and for a property that may be missing. *)
Definition nonempty (s : string) : bool := negb (String.eqb s "").

Definition present (o : option string) : bool :=
  match o with Some s => nonempty s | None => false end.

(** [o || d] *)
Definition or_else (o : option string) (d : string) : string :=
  match o with Some s => if nonempty s then s else d | None => d end.

(** [String(v)] *)
Definition to_String (v : value) : string :=
  match v with
  | VUndefined => "undefined"
  | VNull => "null"
  | VBool true => "true"
  | VBool false => "false"
  | VNum n => pretty n
  | VStr s => s
  | VBuffer bytes => string_of_list_byte bytes
  | VStream _ | VObject _ => "[object Object]"
  | VError name message =>
      if nonempty message then name +:+ ": " +:+ message else name
  end.

(** [Buffer.byteLength(s)] *)
Definition byteLength (s : string) : Z := Z.of_nat (String.length s).

(** The one-character string that holds a double quote. *)
Definition dquote : string := String (ascii_of_nat 34) EmptyString.

(** The bytes that JavaScript's [\s] stands for, read off the front of a
    UTF-8 string: [Some rest] when [s] starts with one white-space
    character. *)
Definition strip_space (s : string) : option string :=
  match s with
  | String c1 r1 =>
      let n1 := nat_of_ascii c1 in
      if ((9 <=? n1) && (n1 <=? 13) || (n1 =? 32))%nat then Some r1
      else
        match r1 with
        | String c2 r2 =>
            let n2 := nat_of_ascii c2 in
            if ((n1 =? 194) && (n2 =? 160))%nat then Some r2        (* U+00A0 *)
            else
              match r2 with
              | String c3 r3 =>
                  let n3 := nat_of_ascii c3 in
                  if ((n1 =? 225) && (n2 =? 154) && (n3 =? 128)           (* U+1680 *)
                      || (n1 =? 226) && (n2 =? 128)
                         && ((128 <=? n3) && (n3 <=? 138)                (* U+2000-200A *)
                             || (n3 =? 168) || (n3 =? 169)               (* U+2028, U+2029 *)
                             || (n3 =? 175))                             (* U+202F *)
                      || (n1 =? 226) && (n2 =? 129) && (n3 =? 159)        (* U+205F *)
                      || (n1 =? 227) && (n2 =? 128) && (n3 =? 128)        (* U+3000 *)
                      || (n1 =? 239) && (n2 =? 187) && (n3 =? 191))%nat   (* U+FEFF *)
                  then Some r3 else None
              | EmptyString => None
              end
        | EmptyString => None
        end
  | EmptyString => None
  end.

(** [/^\s*</.test(s)]; [fuel] bounds the white space skipped and is never
    short when it is the length of [s]. *)
Fixpoint leading_lt_from (fuel : nat) (s : string) : bool :=
  match s with
  | String c r =>
      if (nat_of_ascii c =? 60)%nat then true
      else
        match fuel, strip_space s with
        | S fuel', Some r' => leading_lt_from fuel' r'
        | _, _ => false
        end
  | EmptyString => false
  end.

Definition leading_lt (s : string) : bool :=
  leading_lt_from (String.length s) s.

(** ** What a setter or a helper comes back with *)

Inductive outcome (A : Type) : Type :=
| Ok (a : A)
| Thrown (e : value).

Arguments Ok {A} a.
Arguments Thrown {A} e.

#[export] Instance outcome_bind : MBind outcome :=
  fun A B (k : A -> outcome B) (m : outcome A) =>
    match m with
    | Ok a => k a
    | Thrown e => Thrown e
    end.

(** [assert(cond, msg)] *)
Definition assert (cond : bool) (msg : string) : outcome unit :=
  if cond then Ok tt else Thrown (VError "AssertionError" msg).
(** ** lib/koa-compose.js *)

Module Compose.

(** What a promise settles to. *)
Inductive promise : Type :=
| Resolved (v : value)
| Rejected (e : value).

(** What a function call hands back: a plain value or a promise. *)
Inductive returned : Type :=
| Plain (v : value)
| Awaitable (p : promise).

Inductive completion : Type :=
| Return (r : returned)
| Throw (e : value).

(** Calls the dispatcher makes; kept as a history next to the cursor. The
    code never reads it. *)
Inductive event : Type :=
| Called (i : Z)      (* [fn(context, dispatch.bind(null, i + 1))] was entered *)
| Refused (i : Z).    (* [dispatch(i)] found [i <= index] *)

Section Pipeline.

(** The type of the [context] object handed to every middleware. *)
Context {C : Type}.

(** The body of a middleware function [(context, next) => ...]: it reads
    and mutates the shared context, calls [next()] any number of times and
    gets back the promise of each call, and completes by returning or
    throwing. *)
Inductive prog : Type :=
| Done (c : completion)
| Read (k : C -> prog)
| Update (c : C) (k : prog)
| CallNext (k : promise -> prog).

(** What [compose] and the composed function may be given. *)
Inductive jsval : Type :=
| JData (v : value)
| JFun (f : prog)
| JArr (l : list jsval).

(** [Array.isArray(x)], [typeof x === 'function'], [!x] *)
Definition isArray (x : jsval) : bool :=
  match x with JArr _ => true | _ => false end.
Definition is_function (x : jsval) : bool :=
  match x with JFun _ => true | _ => false end.
Definition falsy (x : jsval) : bool :=
  match x with JData v => negb (truthy v) | _ => false end.

(** One invocation of the composed function: its cursor [index], the
    context object, and the history of calls. *)
Record state : Type := State {
  index : Z;
  context : C;
  history : list event
}.

Definition set_index (i : Z) (s : state) : state :=
  State i (context s) (history s).
Definition set_context (c : C) (s : state) : state :=
  State (index s) c (history s).
Definition log (e : event) (s : state) : state :=
  State (index s) (context s) (e :: history s).

(** A function that returns a promise and may move the cursor. *)
Definition action : Type := state -> promise * state.

(** Running a middleware body with [next] bound to the given action. *)
Fixpoint run (next : action) (p : prog) (s : state) : completion * state :=
  match p with
  | Done c => (c, s)
  | Read k => run next (k (context s)) s
  | Update c k => run next k (set_context c s)
  | CallNext k => let '(r, s') := next s in run next (k r) s'
  end.

(** [fn(context, next)] for whatever [fn] is. *)
Definition call (fn : jsval) (next : action) (s : state) : completion * state :=
  match fn with
  | JFun f => run next f s
  | _ => (Throw (TypeError "fn is not a function"), s)
  end.

(** [try { return Promise.resolve(c) } catch (err) { return Promise.reject(err) }] *)
Definition settle (c : completion) : promise :=
  match c with
  | Return (Plain v) => Resolved v
  | Return (Awaitable p) => p
  | Throw e => Rejected e
  end.

Definition multiple : value := Error "next() called multiple times".

(** Lines 39-40 of [dispatch]: the re-entrancy guard and the cursor
    update, in front of the rest of the body. *)
Definition guarded (i : Z) (body : action) : action :=
  fun s =>
    if i <=? index s then (Rejected multiple, log (Refused i) s)
    else body (set_index i s).

(** Lines 45-51 of [dispatch], once [fn] is chosen. *)
Definition invoke (i : Z) (fn : jsval) (next : action) : action :=
  fun s =>
    if falsy fn then (Resolved VUndefined, s)
    else let '(c, s') := call fn next (log (Called i) s) in (settle c, s').

(** [dispatch(i)] for [i > middleware.length]: [middleware[i]] is
    [undefined]. *)
Definition dispatch_beyond (i : Z) : action :=
  guarded i (fun s => (Resolved VUndefined, s)).

(** [dispatch(i)], where [rest] is [middleware] from index [i] on: its head
    is [middleware[i]], and it is empty exactly when
    [i === middleware.length], in which case [fn = next]. *)
Fixpoint dispatch (rest : list jsval) (next : jsval) (i : Z) : action :=
  guarded i
    match rest with
    | fn :: rest' => invoke i fn (dispatch rest' next (i + 1))
    | [] => invoke i next (dispatch_beyond (i + 1))
    end.

(** The function [compose] returns: [index = -1; return dispatch(0)]. *)
Definition composed (middleware : list jsval) (ctx : C) (next : jsval)
  : promise * state :=
  dispatch middleware next 0 (State (-1) ctx []).

(** [compose(middleware)]: the two checks, then the composed function. *)
Definition compose (middleware : jsval)
  : value + (C -> jsval -> promise * state) :=
  match middleware with
  | JArr fns =>
      if forallb is_function fns then inr (composed fns)
      else inl (TypeError "Middleware must be composed of functions!")
  | _ => inl (TypeError "Middleware stack must be an array!")
  end.


(** [dispatch(i)] when the guard trips. *)
Definition refuse (i : Z) : action :=
  fun s => (Rejected multiple, log (Refused i) s).

(** A body that passes on the failure of every [next()] it calls, as
    [await next()] outside any [try] and [return next()] do: when the promise
    of a [next()] call is rejected, the body completes at once with that
    rejection. *)
Inductive awaits : prog -> Prop :=
| awaits_done c : awaits (Done c)
| awaits_read k : (forall c, awaits (k c)) -> awaits (Read k)
| awaits_update c k : awaits k -> awaits (Update c k)
| awaits_next k :
    (forall e, k (Rejected e) = Done (Return (Awaitable (Rejected e)))
               \/ k (Rejected e) = Done (Throw e)) ->
    (forall v, awaits (k (Resolved v))) ->
    awaits (CallNext k).

Definition awaits_fn (fn : jsval) : Prop :=
  forall f, fn = JFun f -> awaits f.



(** [d] only adds to the history, and whenever what it adds holds an event
    of [E], the promise it returns is [R]. *)
Definition tracks (E : event -> Prop) (R : promise) (d : action) : Prop :=
  forall s, exists t,
    history (d s).2 = t ++ history s /\ (Exists E t -> (d s).1 = R).

(** [d] never moves the cursor back. *)
Definition advances (d : action) : Prop :=
  forall s, index s <= index (d s).2.

(** [d] only adds to the history, and only events of [P]. *)
Definition confined (P : event -> Prop) (d : action) : Prop :=
  forall s, exists t, history (d s).2 = t ++ history s /\ Forall P t.

Definition is_refused (e : event) : Prop := exists i, e = Refused i.


End Pipeline.

Arguments prog : clear implicits.
Arguments jsval : clear implicits.
Arguments state : clear implicits.
Arguments action : clear implicits.


(** *** Sample middleware *)

(** [(ctx, next) => { next(); next() }] *)
Definition twice_unawaited : prog unit :=
  CallNext (fun _ => CallNext (fun _ => Done (Return (Plain VUndefined)))).

(** [async (ctx, next) => { await next(); await next() }] *)
Definition twice_awaited : prog unit :=
  CallNext (fun r1 =>
    match r1 with
    | Rejected e => Done (Return (Awaitable (Rejected e)))
    | Resolved _ =>
        CallNext (fun r2 =>
          match r2 with
          | Rejected e => Done (Return (Awaitable (Rejected e)))
          | Resolved _ => Done (Return (Awaitable (Resolved VUndefined)))
          end)
    end).

(** [(ctx, next) => next()] *)
Definition pass : prog unit :=
  CallNext (fun r => Done (Return (Awaitable r))).


(** [(ctx, next) => { throw new Error('boom') }] *)
Definition boom : value := Error "boom".
Definition thrower : prog unit := Done (Throw boom).


(** [(ctx, next) => {}] *)
Definition noop : prog unit := Done (Return (Plain VUndefined)).

End Compose.

(** ** The collaborators

    Packages the sources call and do not contain. The model takes them as
    they come: every statement below holds for whatever they compute. *)
Class Collaborators : Type := {
  (** [statuses[code]], the reason phrase of a code when it has one *)
  statuses_message : Z -> option string;
  (** [statuses.redirect[code]] *)
  statuses_redirect : Z -> bool;
  (** [getType(type)] of cache-content-type: the full content type, or
      [false] when there is none *)
  getType : string -> option string;
  (** [escape(s)] of escape-html *)
  escape : string -> string;
  (** [accepts(req).types(type)], from the request's headers *)
  accepts_types : gmap string string -> string -> option string;
  (** [isJSON(body)] of koa-is-json *)
  isJSON : value -> bool;
  (** [JSON.stringify(body)]: the text, [undefined] ([None]), or what it
      throws *)
  JSON_stringify : value -> outcome (option string);
  (** what [Buffer.byteLength(undefined)] throws *)
  byteLength_undefined : value;
  (** [stream == v] for a stream object and a primitive [v] *)
  stream_equals : nat -> value -> bool
}.

(** Modelled from the spec: the body-forbidden status codes
    ([statuses.empty] of the statuses package) are 204, 205 and 304. *)
Definition statuses_empty (code : Z) : bool :=
  (code =? 204) || (code =? 205) || (code =? 304).

(** ** The transport's request and response objects *)

(** The parts of a parsed URL that parseurl's fast path fills; the others
    ([protocol], [host], [hash], ...) are [null] on every such object. *)
Record Url : Type := mkUrl {
  pathname : option string;
  search : option string;
  query : option string;
  path : option string;
  href : option string;
  _raw : string
}.

(** [http.IncomingMessage], with the memo parseurl keeps on it. *)
Record IncomingMessage : Type := mkReq {
  method : string;
  url : string;
  req_headers : gmap string string;
  httpVersionMajor : Z;
  _parsedUrl : option Url
}.

(** What [res.end] was given. *)
Inductive payload : Type :=
| PString (s : string)
| PBuffer (bytes : list Byte.byte).

(** Modelled from the spec: the raw response object of the transport, with a
    settable status code and message, a header store read and written under
    lower-cased names, the one-way [headersSent] and [finished] flags, the
    socket's writability when a socket is attached, and the record of what
    [end] and [pipe] were called with. *)
Record ServerResponse : Type := mkRes {
  statusCode : Z;
  statusMessage : option string;
  headers : gmap string string;
  headersSent : bool;
  finished : bool;
  socket : option bool;
  ended : list (option payload);
  piped : list nat
}.

Definition with_statusCode (code : Z) (r : ServerResponse) : ServerResponse :=
  mkRes code (statusMessage r) (headers r) (headersSent r) (finished r)
        (socket r) (ended r) (piped r).

Definition with_statusMessage (msg : option string) (r : ServerResponse)
  : ServerResponse :=
  mkRes (statusCode r) msg (headers r) (headersSent r) (finished r)
        (socket r) (ended r) (piped r).

Definition with_headers (h : gmap string string) (r : ServerResponse)
  : ServerResponse :=
  mkRes (statusCode r) (statusMessage r) h (headersSent r) (finished r)
        (socket r) (ended r) (piped r).

(** Modelled from the spec: header set and remove of the raw response. *)
Definition setHeader (name val : string) (r : ServerResponse) : ServerResponse :=
  with_headers (<[toLowerCase name := val]> (headers r)) r.

Definition removeHeader (name : string) (r : ServerResponse) : ServerResponse :=
  with_headers (delete (toLowerCase name) (headers r)) r.

(** Modelled from the spec: the flush-headers operation of the raw response;
    it flags the headers as sent. *)
Definition res_flushHeaders (r : ServerResponse) : ServerResponse :=
  mkRes (statusCode r) (statusMessage r) (headers r) true (finished r)
        (socket r) (ended r) (piped r).

(** Modelled from the spec: the end-of-response write of the raw response;
    the headers go out and the response is finished. *)
Definition res_end (data : option payload) (r : ServerResponse) : ServerResponse :=
  mkRes (statusCode r) (statusMessage r) (headers r) true true
        (socket r) (ended r ++ [data]) (piped r).

(** [stream.pipe(res)] *)
Definition res_pipe (id : nat) (r : ServerResponse) : ServerResponse :=
  mkRes (statusCode r) (statusMessage r) (headers r) (headersSent r)
        (finished r) (socket r) (ended r) (piped r ++ [id]).

(** A response object as the transport hands it over. *)
Definition new_ServerResponse (sock : option bool) : ServerResponse :=
  mkRes 200 None ∅ false false sock [] [].

(** ** The context: one request, one response, the two facades *)

(** The objects [createContext] ties together, and the fields the facades
    keep on themselves. *)
Record ctx : Type := mkCtx {
  req : IncomingMessage;
  res : ServerResponse;
  _body : value;                  (* response._body *)
  _explicitStatus : bool;         (* response._explicitStatus *)
  respond_flag : value;           (* ctx.respond *)
  finish_listeners : list nat;    (* onFinish(res, destroy.bind(null, stream)) *)
  error_handlers : list nat       (* ensureErrorHandler(stream, ...) *)
}.

Definition with_res (f : ServerResponse -> ServerResponse) (c : ctx) : ctx :=
  mkCtx (req c) (f (res c)) (_body c) (_explicitStatus c) (respond_flag c)
        (finish_listeners c) (error_handlers c).

Definition with_body (v : value) (c : ctx) : ctx :=
  mkCtx (req c) (res c) v (_explicitStatus c) (respond_flag c)
        (finish_listeners c) (error_handlers c).

Definition with_explicitStatus (b : bool) (c : ctx) : ctx :=
  mkCtx (req c) (res c) (_body c) b (respond_flag c)
        (finish_listeners c) (error_handlers c).

Definition with_respond (v : value) (c : ctx) : ctx :=
  mkCtx (req c) (res c) (_body c) (_explicitStatus c) v
        (finish_listeners c) (error_handlers c).

Definition with_stream_listeners (id : nat) (c : ctx) : ctx :=
  mkCtx (req c) (res c) (_body c) (_explicitStatus c) (respond_flag c)
        (finish_listeners c ++ [id]) (error_handlers c ++ [id]).

(** ** The URL helpers of the request facade

    [parse] is the parseurl package and [stringify] is [url.format] of the
    platform; neither is among the sources. They are written out here for
    request targets in origin form ([/path?query], ASCII, no white space and
    no [#]), where parseurl takes its fast path. Outside of that parseurl
    hands over to [url.parse], and the model answers [None]. *)

(** [s.substring(0, n)] and [s.substring(n)] *)
Fixpoint string_take (n : nat) (s : string) : string :=
  match n, s with
  | S n', String c s' => String c (string_take n' s')
  | _, _ => EmptyString
  end.

Fixpoint string_drop (n : nat) (s : string) : string :=
  match n, s with
  | S n', String c s' => string_drop n' s'
  | _, _ => s
  end.

Definition is_question (c : ascii) : bool := (nat_of_ascii c =? 63)%nat.
Definition is_hash (c : ascii) : bool := (nat_of_ascii c =? 35)%nat.

(** The characters at which the fast path gives up: tab, line feed, form
    feed, carriage return, space, [#], and here every byte outside ASCII. *)
Definition is_break (c : ascii) : bool :=
  let n := nat_of_ascii c in
  ((n =? 9) || (n =? 10) || (n =? 12) || (n =? 13) || (n =? 32) || (n =? 35)
   || (128 <=? n))%nat.

(** The loop of [fastparse] from index [i] on: the index of the first [?],
    if any, unless a break character turns up. *)
Fixpoint scan (i : nat) (rest : string) (found : option nat)
  : option (option nat) :=
  match rest with
  | EmptyString => Some found
  | String c rest' =>
      if is_question c then
        scan (S i) rest' (match found with None => Some i | Some _ => found end)
      else if is_break c then None
      else scan (S i) rest' found
  end.

Definition fastparse (str : string) : option Url :=
  match str with
  | String c rest =>
      if (nat_of_ascii c =? 47)%nat then
        match scan 1 rest None with
        | Some (Some i) =>
            Some (mkUrl (Some (string_take i str)) (Some (string_drop i str))
                        (Some (string_drop (S i) str)) (Some str) (Some str) str)
        | Some None => Some (mkUrl (Some str) None None (Some str) (Some str) str)
        | None => None
        end
      else None
  | EmptyString => None
  end.

(** [parseurl(req)]: the memo when it was made from the current [req.url],
    a fresh parse kept as the new memo otherwise. *)
Definition parseurl (r : IncomingMessage) : option (Url * IncomingMessage) :=
  let reparse :=
    match fastparse (url r) with
    | Some u => Some (u, mkReq (method r) (url r) (req_headers r)
                            (httpVersionMajor r) (Some u))
    | None => None
    end in
  match _parsedUrl r with
  | Some u => if String.eqb (_raw u) (url r) then Some (u, r) else reparse
  | None => reparse
  end.

(** [pathname.replace(/[?#]/g, encodeURIComponent)] and
    [search.replace(/#/g, '%23')]; a release that escapes only the first
    [#] of the search agrees on every search with at most one. *)
Fixpoint escape_pathname (s : string) : string :=
  match s with
  | EmptyString => EmptyString
  | String c s' =>
      if is_question c then "%3F" +:+ escape_pathname s'
      else if is_hash c then "%23" +:+ escape_pathname s'
      else String c (escape_pathname s')
  end.

Fixpoint escape_search (s : string) : string :=
  match s with
  | EmptyString => EmptyString
  | String c s' =>
      if is_hash c then "%23" +:+ escape_search s'
      else String c (escape_search s')
  end.

Definition starts_with_question (s : string) : bool :=
  match s with String c _ => is_question c | EmptyString => false end.

(** [url.format(u)] for an object of the fast path: no protocol, host or
    hash, and a [query] that is a string. *)
Definition format (u : Url) : string :=
  let pathname := or_else (pathname u) "" in
  let search := or_else (search u) "" in
  let search := if nonempty search && negb (starts_with_question search)
                then "?" +:+ search else search in
  escape_pathname pathname +:+ escape_search search.









(** ** lib/request.js *)

Module Request.

Definition with_url (u : Url) (r : IncomingMessage) : IncomingMessage :=
  mkReq (method r) (format u) (req_headers r) (httpVersionMajor r) (Some u).




(** [set querystring(str)] *)
Definition set_querystring (str : string) (r : IncomingMessage)
  : option IncomingMessage :=
  '(u, r) ← parseurl r;
  if decide (search u = Some ("?" +:+ str)) then Some r
  else
    let u := mkUrl (pathname u) (Some str) (query u) None (href u) (_raw u) in
    Some (with_url u r).

(** [get(field)] *)
Definition get (field : string) (c : ctx) : string :=
  let field := toLowerCase field in
  if String.eqb field "referer" || String.eqb field "referrer" then
    or_else (req_headers (req c) !! "referrer")
      (or_else (req_headers (req c) !! "referer") "")
  else or_else (req_headers (req c) !! field) "".

(** [accepts(type)], through the memoized [accept] object. *)
Definition accepts `{Collaborators} (type : string) (c : ctx) : option string :=
  accepts_types (req_headers (req c)) type.

End Request.

(** Modelled from the spec: the context object (lib/context.js is not among
    the sources) binds one request facade and one response facade; its [get]
    is the request facade's. *)
Definition ctx_get : string -> ctx -> string := Request.get.

(** Modelled from the spec: the context's [accepts] is the request
    facade's. *)
Definition ctx_accepts `{Collaborators} : string -> ctx -> option string :=
  Request.accepts.

(** Modelled from the spec: the context's [method] is the request
    facade's, which reads [req.method]. *)
Definition ctx_method (c : ctx) : string := method (req c).

(** ** lib/response.js *)

Module Response.

Section Facade.

Context `{Collaborators}.

(** [get header], [get status], [get headerSent], [get body] *)
Definition header (c : ctx) : gmap string string := headers (res c).
Definition status (c : ctx) : Z := statusCode (res c).
Definition headerSent (c : ctx) : bool := headersSent (res c).
Definition body (c : ctx) : value := _body c.

(** [get(field)] *)
Definition get (field : string) (c : ctx) : string :=
  or_else (header c !! toLowerCase field) "".

(** [set(field, val)], called with a field and a value *)
Definition set (field : string) (val : value) (c : ctx) : ctx :=
  if headerSent c then c
  else with_res (setHeader field (to_String val)) c.

(** [remove(field)] *)
Definition remove (field : string) (c : ctx) : ctx :=
  if headerSent c then c
  else with_res (removeHeader field) c.

(** [set type(type)] *)
Definition set_type (type : string) (c : ctx) : ctx :=
  match getType type with
  | Some t => if nonempty t then set "Content-Type" (VStr t) c
              else remove "Content-Type" c
  | None => remove "Content-Type" c
  end.

(** The Content-Type that [set type(type)] leaves behind. *)
Definition type_header (type : string) : option string :=
  match getType type with
  | Some t => if nonempty t then Some t else None
  | None => None
  end.

(** [set length(n)] *)
Definition set_length (n : Z) (c : ctx) : ctx :=
  set "Content-Length" (VNum n) c.

(** [get message] *)
Definition message (c : ctx) : option string :=
  if present (statusMessage (res c)) then statusMessage (res c)
  else statuses_message (status c).

(** [get writable] *)
Definition writable (c : ctx) : bool :=
  if finished (res c) then false
  else match socket (res c) with
       | None => true
       | Some w => w
       end.

(** [flushHeaders()] *)
Definition flushHeaders (c : ctx) : ctx := with_res res_flushHeaders c.

(** Lines 97-101 of [set status]: the flag, the code and, below HTTP/2, the
    reason phrase. *)
Definition stamp (code : Z) (c : ctx) : ctx :=
  let c := with_explicitStatus true c in
  let c := with_res (with_statusCode code) c in
  if httpVersionMajor (req c) <? 2
  then with_res (with_statusMessage (statuses_message code)) c
  else c.

(** [set status(code)] for an integer [code], with the setter line 103 calls
    for [this.body = null] handed in. [Number.isInteger(code)] holds of every
    [code : Z]; the message of the range assertion is written in decimal
    digits, as the template literal writes every integer of less than 22
    digits. *)
Definition set_status_with (set_body_null : ctx -> outcome ctx)
    (code : Z) (c : ctx) : outcome ctx :=
  if headerSent c then Ok c
  else
    _ ← assert ((100 <=? code) && (code <=? 999))
          ("invalid status code: " +:+ pretty code);
    let c := stamp code c in
    if truthy (body c) && statuses_empty code then set_body_null c else Ok c.

(** [original != val] for a stream [val] *)
Definition differs_from_stream (original : value) (id : nat) : bool :=
  match original with
  | VStream id' => negb (Nat.eqb id' id)
  | VBool _ | VNum _ | VStr _ => negb (stream_equals id original)
  | _ => true
  end.

(** Lines 159-161 of [set body]: the three headers of a body go. *)
Definition strip (c : ctx) : ctx :=
  remove "Transfer-Encoding" (remove "Content-Length" (remove "Content-Type" c)).

(** Lines 171-208 of [set body]: type and length, by the shape of [val]. *)
Definition describe (original val : value) (c : ctx) : ctx :=
  let setType := negb (present (header c !! "content-type")) in
  match val with
  | VStr s =>
      let c := if setType
               then set_type (if leading_lt s then "html" else "text") c
               else c in
      set_length (byteLength s) c
  | VBuffer bytes =>
      let c := if setType then set_type "bin" c else c in
      set_length (Z.of_nat (length bytes)) c
  | VStream id =>
      let c := with_stream_listeners id c in
      let c := if negb (nullish original) && differs_from_stream original id
               then remove "Content-Length" c else c in
      if setType then set_type "bin" c else c
  | _ => set_type "json" (remove "Content-Length" c)
  end.

(** The type and the length [describe] gives a body that comes without a
    Content-Type: lines 171-208 of [set body]. *)
Definition body_type (val : value) : string :=
  match val with
  | VStr s => if leading_lt s then "html" else "text"
  | VBuffer _ | VStream _ => "bin"
  | _ => "json"
  end.

Definition body_length (val : value) : option string :=
  match val with
  | VStr s => Some (pretty (byteLength s))
  | VBuffer bytes => Some (pretty (Z.of_nat (length bytes)))
  | _ => None
  end.

(** [set body(val)], with the setter lines 157 and 167 call for
    [this.status = ...] handed in. *)
Definition set_body_with (set_status : Z -> ctx -> outcome ctx)
    (val : value) (c : ctx) : outcome ctx :=
  let original := _body c in
  let c := with_body val c in
  if nullish val then
    c ← (if statuses_empty (status c) then Ok c else set_status 204 c);
    Ok (strip c)
  else
    c ← (if _explicitStatus c then Ok c else set_status 200 c);
    Ok (describe original val c).

(** The two setters call each other. Inside [set body], the status setter
    runs with a body that is null (line 157) or with the code 200 (line 167),
    so its line 103 does not fire and what it would call does not matter;
    [set_body_unfold] and [set_status_unfold] show that the definitions
    below satisfy the mutual equations of the source. *)
Definition set_body : value -> ctx -> outcome ctx :=
  set_body_with (set_status_with (fun c => Ok c)).

Definition set_status : Z -> ctx -> outcome ctx :=
  set_status_with (set_body VNull).

(** No body and none of its three headers. *)
Definition body_gone (c : ctx) : Prop :=
  body c = VNull
  /\ header c !! "content-type" = None
  /\ header c !! "content-length" = None
  /\ header c !! "transfer-encoding" = None.

(** The notices [redirect] writes. *)
Definition html_notice (url : string) : string :=
  "Redirecting to <a href=" +:+ dquote +:+ url +:+ dquote
  +:+ ">" +:+ url +:+ "</a>.".

Definition text_notice (url : string) : string :=
  "Redirecting to " +:+ url +:+ ".".

(** [redirect(url, alt)] *)
Definition redirect (url : string) (alt : option string) (c : ctx) : outcome ctx :=
  let url := if String.eqb "back" url
             then or_else (Some (ctx_get "Referrer" c)) (or_else alt "/")
             else url in
  let c := set "Location" (VStr url) c in
  c ← (if statuses_redirect (status c) then Ok c else set_status 302 c);
  if present (ctx_accepts "html" c) then
    let url := escape url in
    let c := set_type "text/html; charset=utf-8" c in
    set_body (VStr (html_notice url)) c
  else
    let c := set_type "text/plain; charset=utf-8" c in
    set_body (VStr (text_notice url)) c.

(** [c'] differs from [c] in the header store at most, and not even there
    once the headers are sent. *)
Definition same_but_headers (c c' : ctx) : Prop :=
  status c' = status c /\ body c' = body c
  /\ _explicitStatus c' = _explicitStatus c
  /\ headerSent c' = headerSent c /\ req c' = req c
  /\ respond_flag c' = respond_flag c
  /\ writable c' = writable c
  /\ ended (res c') = ended (res c)
  /\ (headerSent c = true -> header c' = header c).

End Facade.

End Response.

(** ** lib/application.js *)

Module Application.

Section Finalizer.

Context `{Collaborators}.

(** Modelled from the spec: the context's [body], [status], [message] and
    [writable] are the response facade's. *)
Definition ctx_body : ctx -> value := Response.body.
Definition ctx_status : ctx -> Z := Response.status.
Definition ctx_message : ctx -> option string := Response.message.
Definition ctx_writable : ctx -> bool := Response.writable.

(** Modelled from the spec: assigning the context's [body], [type] and
    [length] assigns the response facade's. *)
Definition ctx_set_body : value -> ctx -> outcome ctx := Response.set_body.
Definition ctx_set_type : string -> ctx -> ctx := Response.set_type.
Definition ctx_set_length : Z -> ctx -> ctx := Response.set_length.

(** [createContext(req, res)] *)
Definition createContext (rq : IncomingMessage) (rs : ServerResponse) : ctx :=
  mkCtx rq rs VUndefined false VUndefined [] [].

(** [false === ctx.respond] *)
Definition is_false (v : value) : bool :=
  match v with VBool false => true | _ => false end.

(** [Buffer.byteLength(text)] for what [JSON.stringify] returned. *)
Definition byteLength_of (text : option string) : outcome Z :=
  match text with
  | Some s => Ok (byteLength s)
  | None => Thrown byteLength_undefined
  end.

(** [respond(ctx)] *)
Definition respond (c : ctx) : outcome ctx :=
  if is_false (respond_flag c) then Ok c
  else if negb (ctx_writable c) then Ok c
  else
    let body := ctx_body c in
    let code := ctx_status c in
    if statuses_empty code then
      c ← ctx_set_body VNull c;
      Ok (with_res (res_end None) c)
    else if String.eqb "HEAD" (ctx_method c) then
      c ← (if negb (headersSent (res c)) && isJSON body
           then text ← JSON_stringify body;
                n ← byteLength_of text;
                Ok (ctx_set_length n c)
           else Ok c);
      Ok (with_res (res_end None) c)
    else if nullish body then
      let body := if 2 <=? httpVersionMajor (req c) then pretty code
                  else or_else (ctx_message c) (pretty code) in
      let c := if negb (headersSent (res c))
               then ctx_set_length (byteLength body) (ctx_set_type "text" c)
               else c in
      Ok (with_res (res_end (Some (PString body))) c)
    else
      match body with
      | VBuffer bytes => Ok (with_res (res_end (Some (PBuffer bytes))) c)
      | VStr s => Ok (with_res (res_end (Some (PString s))) c)
      | VStream id => Ok (with_res (res_pipe id) c)
      | _ =>
          text ← JSON_stringify body;
          c ← (if negb (headersSent (res c))
               then n ← byteLength_of text; Ok (ctx_set_length n c)
               else Ok c);
          Ok (with_res (res_end (PString <$> text)) c)
      end.

(** The context [handleRequest] runs the middleware on: the one
    [createContext] made, with [res.statusCode = 404]. *)
Definition fresh (rq : IncomingMessage) (sock : option bool) : ctx :=
  with_res (with_statusCode 404) (createContext rq (new_ServerResponse sock)).

(** [handleRequest(ctx, fnMiddleware)], with the context's [onerror] handed
    in: [fnMiddleware(ctx).then(handleResponse).catch(onerror)], and
    [onFinished(res, onerror)], by which the handler is called with [null]
    once the response is finished (with the error of the socket when the
    transport fails, which the model has none of). *)
Definition handleRequest (onerror : value -> ctx -> ctx)
    (fnMiddleware : ctx -> Compose.promise * Compose.state ctx) (c : ctx) : ctx :=
  let c := with_res (with_statusCode 404) c in
  let '(p, s) := fnMiddleware c in
  let c := Compose.context s in
  let c := match p with
           | Compose.Resolved _ =>
               match respond c with
               | Ok c' => c'
               | Thrown e => onerror e c
               end
           | Compose.Rejected e => onerror e c
           end in
  if finished (res c) then onerror VNull c else c.

End Finalizer.

End Application.

(** ** Sample collaborators and requests *)

(** An excerpt of the tables of statuses, of the type lookup and of the
    escaping: enough to run the facades on examples. *)
Definition sample_message (code : Z) : option string :=
  if code =? 200 then Some "OK"
  else if code =? 204 then Some "No Content"
  else if code =? 205 then Some "Reset Content"
  else if code =? 301 then Some "Moved Permanently"
  else if code =? 302 then Some "Found"
  else if code =? 304 then Some "Not Modified"
  else if code =? 404 then Some "Not Found"
  else None.

Definition sample_redirect (code : Z) : bool :=
  (code =? 300) || (code =? 301) || (code =? 302) || (code =? 303)
  || (code =? 305) || (code =? 307) || (code =? 308).

Definition sample_getType (type : string) : option string :=
  if String.eqb type "html" then Some "text/html; charset=utf-8"
  else if String.eqb type "text" then Some "text/plain; charset=utf-8"
  else if String.eqb type "json" then Some "application/json; charset=utf-8"
  else if String.eqb type "bin" then Some "application/octet-stream"
  else if String.eqb type "text/html; charset=utf-8" then Some type
  else if String.eqb type "text/plain; charset=utf-8" then Some type
  else None.

Fixpoint sample_escape (s : string) : string :=
  match s with
  | EmptyString => EmptyString
  | String c s' =>
      let n := nat_of_ascii c in
      if (n =? 34)%nat then "&quot;" +:+ sample_escape s'
      else if (n =? 38)%nat then "&amp;" +:+ sample_escape s'
      else if (n =? 39)%nat then "&#39;" +:+ sample_escape s'
      else if (n =? 60)%nat then "&lt;" +:+ sample_escape s'
      else if (n =? 62)%nat then "&gt;" +:+ sample_escape s'
      else String c (sample_escape s')
  end.

(** A client that takes what it names in [Accept] word for word. *)
Definition sample_accepts (h : gmap string string) (type : string)
  : option string :=
  match h !! "accept" with
  | Some a => if String.eqb a "text/html" && String.eqb type "html"
              then Some type else None
  | None => Some type
  end.

Definition sample_isJSON (v : value) : bool :=
  match v with
  | VBool true | VObject _ | VError _ _ => true
  | VNum n => negb (n =? 0)
  | _ => false
  end.

Definition sample : Collaborators := {|
  statuses_message := sample_message;
  statuses_redirect := sample_redirect;
  getType := sample_getType;
  escape := sample_escape;
  accepts_types := sample_accepts;
  isJSON := sample_isJSON;
  JSON_stringify := fun v => Ok (Some (to_String v));
  byteLength_undefined := TypeError "The string argument must be a string";
  stream_equals := fun _ _ => false
|}.

(** [GET /] over HTTP/1.1 with no headers, and the same request sent from a
    page at [http://x] by a client that asks for HTML. *)
Definition plain_request : IncomingMessage :=
  mkReq "GET" "/" ∅ 1 None.

Definition referred_request : IncomingMessage :=
  mkReq "GET" "/" (<["referrer" := "http://x"]> (<["accept" := "text/html"]> ∅))
        1 None.


(** Two middleware over the context: the first awaits the rest, the second
    answers ["ok"].
    [async (ctx, next) => { await next() }] and [ctx => { ctx.body = 'ok' }] *)
Definition outer : Compose.prog ctx :=
  Compose.CallNext (fun r =>
    match r with
    | Compose.Rejected e =>
        Compose.Done (Compose.Return (Compose.Awaitable (Compose.Rejected e)))
    | Compose.Resolved _ =>
        Compose.Done
          (Compose.Return (Compose.Awaitable (Compose.Resolved VUndefined)))
    end).

Definition answer_ok : Compose.prog ctx :=
  Compose.Read (fun c =>
    match Response.set_body (H := sample) (VStr "ok") c with
    | Ok c' =>
        Compose.Update c' (Compose.Done (Compose.Return (Compose.Plain VUndefined)))
    | Thrown e => Compose.Done (Compose.Throw e)
    end).

(** ** More of the model

    What follows adds to the model the parts of the same files that the
    sections above did not need. *)

(** *** lib/koa-compose.js: the order of entry *)

Module Onion.

Import Compose.

Section Order.

Context {C : Type}.

(** The indices entered, newest first. *)
Fixpoint entered (h : list event) : list Z :=
  match h with
  | [] => []
  | Called i :: h' => i :: entered h'
  | Refused _ :: h' => entered h'
  end.

(** [i + n - 1], ..., [i + 1], [i] *)
Fixpoint descending (i : Z) (n : nat) : list Z :=
  match n with
  | O => []
  | S n' => (i + Z.of_nat n') :: descending i n'
  end.

(** The indices entered so far went up one entry after the other, and none
    is above the cursor. *)
Definition ordered (s : state C) : Prop :=
  StronglySorted Z.gt (entered (history s))
  /\ Forall (fun j => j <= index s) (entered (history s)).

Definition keeps_order (d : action C) : Prop :=
  forall s, ordered s -> ordered (d s).2.

(** A body that does what it does to the context and hands on the promise
    of its one [next()] call: [(ctx, next) => { ...; return next() }]. *)
Inductive forwards : prog C -> Prop :=
| forwards_next : forwards (CallNext (fun r => Done (Return (Awaitable r))))
| forwards_read k : (forall c, forwards (k c)) -> forwards (Read k)
| forwards_update c k : forwards k -> forwards (Update c k).

Definition forwards_fn (fn : jsval C) : Prop :=
  exists f, fn = JFun f /\ forwards f.

(** A body that completes with [c] without calling [next()]. *)
Inductive ends_with (c : completion) : prog C -> Prop :=
| ends_done : ends_with c (Done c)
| ends_read k : (forall x, ends_with c (k x)) -> ends_with c (Read k)
| ends_update x k : ends_with c k -> ends_with c (Update x k).

End Order.

(** [(ctx, next) => 'done'] *)
Definition returns_done : prog unit := Done (Return (Plain (VStr "done"))).

End Onion.

(** *** lib/response.js: message, type, ETag *)

Module ResponseMore.

Import Response.

Section Facade.

Context `{Collaborators}.



Definition set_message (msg : string) (c : ctx) : ctx :=
  with_res (with_statusMessage (Some msg)) c.

(** [s.split(';', 1)[0]] *)
Fixpoint before_semicolon (s : string) : string :=
  match s with
  | EmptyString => EmptyString
  | String c s' =>
      if (nat_of_ascii c =? 59)%nat then EmptyString
      else String c (before_semicolon s')
  end.

(** [get type] *)
Definition get_type (c : ctx) : string :=
  let type := get "Content-Type" c in
  if nonempty type then before_semicolon type else "".




(** A body that is neither null nor a string, a buffer or a stream: the
    last case of [set body]. *)
Definition json_body (v : value) : bool :=
  match v with
  | VBool _ | VNum _ | VObject _ | VError _ _ => true
  | _ => false
  end.

(** No [;] in [s]. *)
Fixpoint no_semicolon (s : string) : bool :=
  match s with
  | EmptyString => true
  | String c s' => negb (nat_of_ascii c =? 59)%nat && no_semicolon s'
  end.

End Facade.

End ResponseMore.

(** ** lib/application.js: the middleware list and the request handler *)

Module ApplicationMore.

Import Compose Application.

(** The part of an application the request path reads: [this.middleware]. *)
Record application : Type := mkApp {
  middleware : list (jsval ctx)
}.

(** [new Application()]: [this.middleware = []] *)
Definition new_application : application := mkApp [].

Section App.

Context `{Collaborators}.

(** [isGeneratorFunction(fn)] and [convert(fn)], of the packages
    is-generator-function and koa-convert. *)
Variable isGeneratorFunction : prog ctx -> bool.
Variable convert : prog ctx -> prog ctx.

(** [use(fn)]; the deprecation notice and the debug line write to the
    console only. *)
Definition use (fn : jsval ctx) (app : application) : outcome application :=
  if negb (is_function fn)
  then Thrown (TypeError "middleware must be a function!")
  else
    let fn := match fn with
              | JFun f => if isGeneratorFunction f then JFun (convert f) else fn
              | _ => fn
              end in
    Ok (mkApp (middleware app ++ [fn])).

(** [app.use(a).use(b)...] *)
Fixpoint use_all (fns : list (jsval ctx)) (app : application)
  : outcome application :=
  match fns with
  | [] => Ok app
  | fn :: rest => app ← use fn app; use_all rest app
  end.

(** [callback()], with the context's [onerror] handed in: what [compose]
    throws, or the handler of one request. The handler calls the composed
    function with the context alone, so its [next] is [undefined]. *)
Definition callback (onerror : value -> ctx -> ctx) (app : application)
  : value + (IncomingMessage -> ServerResponse -> ctx) :=
  match compose (JArr (middleware app)) with
  | inl e => inl e
  | inr fn =>
      inr (fun rq rs =>
             handleRequest onerror (fun c => fn c (JData VUndefined))
               (createContext rq rs))
  end.

End App.

End ApplicationMore.

(** ** lib/request.js: the search, the proxy headers, freshness *)

Module RequestMore.

Import Request.


(** [set search(str)] *)
Definition set_search : string -> IncomingMessage -> option IncomingMessage :=
  set_querystring.

(** [/^\s*,/.test(s)]; [fuel] bounds the white space skipped and is never
    short when it is the length of [s]. *)
Fixpoint at_separator_from (fuel : nat) (s : string) : bool :=
  match s with
  | String c r =>
      if (nat_of_ascii c =? 44)%nat then true
      else
        match fuel, strip_space s with
        | S fuel', Some r' => at_separator_from fuel' r'
        | _, _ => false
        end
  | EmptyString => false
  end.

Definition at_separator (s : string) : bool :=
  at_separator_from (String.length s) s.

(** [s.split(/\s*,\s*/, 1)[0]] for a string that is not empty: [s] up to the
    first place where white space and a comma follow. *)
Fixpoint first_item (s : string) : string :=
  match s with
  | EmptyString => EmptyString
  | String c r => if at_separator s then EmptyString else String c (first_item r)
  end.


(** [get host], with [this.app.proxy] handed in. *)
Definition get_host (proxy : bool) (c : ctx) : string :=
  let host := if proxy then get "X-Forwarded-Host" c else "" in
  let host :=
    if nonempty host then host
    else
      let host := if 2 <=? httpVersionMajor (req c)
                  then get ":authority" c else host in
      if nonempty host then host else get "Host" c in
  if nonempty host then first_item host else "".

(** [get protocol], with [this.socket.encrypted] and [this.app.proxy] handed
    in. *)
Definition get_protocol (encrypted proxy : bool) (c : ctx) : string :=
  if encrypted then "https"
  else if negb proxy then "http"
  else
    let proto := get "X-Forwarded-Proto" c in
    if nonempty proto then first_item proto else "http".

(** [get secure] *)
Definition get_secure (encrypted proxy : bool) (c : ctx) : bool :=
  String.eqb "https" (get_protocol encrypted proxy c).

(** A request with one more header, as the transport would hand it over. *)
Definition with_req_header (name val : string) (c : ctx) : ctx :=
  mkCtx (mkReq (method (req c)) (url (req c))
               (<[name := val]> (req_headers (req c)))
               (httpVersionMajor (req c)) (_parsedUrl (req c)))
        (res c) (_body c) (_explicitStatus c) (respond_flag c)
        (finish_listeners c) (error_handlers c).

(** [get fresh], with the package fresh handed in. *)
Definition get_fresh (fresh : gmap string string -> gmap string string -> bool)
    (c : ctx) : bool :=
  let method := ctx_method c in
  let s := Application.ctx_status c in
  if negb (String.eqb "GET" method) && negb (String.eqb "HEAD" method)
  then false
  else if (200 <=? s) && (s <? 300) || (304 =? s)
  then fresh (req_headers (req c)) (Response.header c)
  else false.

(** [get stale] *)
Definition get_stale (fresh : gmap string string -> gmap string string -> bool)
    (c : ctx) : bool :=
  negb (get_fresh fresh c).

(** [get idempotent] *)
Definition get_idempotent (c : ctx) : bool :=
  existsb (String.eqb (ctx_method c))
    ["GET"; "HEAD"; "PUT"; "DELETE"; "OPTIONS"; "TRACE"].

End RequestMore.
(** * Properties

    Everything below is proved of the definitions above. *)

(** ** The composer *)

Module ComposeFacts.

Import Compose.

(** *** Facts about [dispatch] *)

Section Facts.

Context {C : Type}.
Implicit Types (s : state C) (p : prog C) (d next : action C).
Implicit Types (fn nx : jsval C) (rest : list (jsval C)).

Lemma guarded_refuse i d s :
  i <= index s -> guarded i d s = refuse i s.
Proof.
  intros Hle. unfold guarded, refuse.
  destruct (Z.leb_spec i (index s)); [reflexivity | lia].
Qed.

Lemma guarded_enter i d s :
  index s < i -> guarded i d s = d (set_index i s).
Proof.
  intros Hlt. unfold guarded.
  destruct (Z.leb_spec i (index s)); [lia | reflexivity].
Qed.

Lemma dispatch_unfold rest nx i :
  dispatch rest nx i =
  guarded i match rest with
            | fn :: rest' => invoke i fn (dispatch rest' nx (i + 1))
            | [] => invoke i nx (dispatch_beyond (i + 1))
            end.
Proof. destruct rest; reflexivity. Qed.

Lemma invoke_fun i (f : prog C) next s :
  invoke i (JFun f) next s =
  let '(c, s') := run next f (log (Called i) s) in (settle c, s').
Proof. reflexivity. Qed.

Lemma dispatch_refuse rest nx i s :
  i <= index s -> dispatch rest nx i s = refuse i s.
Proof. intros Hle. rewrite dispatch_unfold. by apply guarded_refuse. Qed.

(** **** The cursor only moves forward *)

Lemma run_advances next p s :
  advances next -> index s <= index (run next p s).2.
Proof.
  intros Hn. revert s.
  induction p as [c | k IH | c k IH | k IH]; intros s; simpl.
  - lia.
  - apply IH.
  - apply (IH (set_context c s)).
  - pose proof (Hn s) as Hs. destruct (next s) as [r s'].
    simpl in Hs. specialize (IH r s'). lia.
Qed.

Lemma invoke_reaches i fn next s :
  advances next -> index s <= index (invoke i fn next s).2.
Proof.
  intros Hn. unfold invoke. destruct (falsy fn); simpl; [lia |].
  destruct (call fn next (log (Called i) s)) as [c s'] eqn:Hc. simpl.
  unfold call in Hc. destruct fn as [v | f | l].
  - injection Hc as _ <-. simpl. lia.
  - pose proof (run_advances next f (log (Called i) s) Hn) as Hr.
    rewrite Hc in Hr. exact Hr.
  - injection Hc as _ <-. simpl. lia.
Qed.

Lemma guarded_reaches i d s :
  advances d ->
  index s <= index (guarded i d s).2 /\ i <= index (guarded i d s).2.
Proof.
  intros Hd. unfold guarded.
  destruct (Z.leb_spec i (index s)) as [Hle | Hlt]; simpl; [lia |].
  pose proof (Hd (set_index i s)) as Hs. simpl in Hs. lia.
Qed.

Lemma dispatch_beyond_reaches i s :
  index s <= index (dispatch_beyond i s).2 /\ i <= index (dispatch_beyond i s).2.
Proof. apply guarded_reaches. intros s'. simpl. lia. Qed.

Lemma dispatch_reaches rest nx i s :
  index s <= index (dispatch rest nx i s).2 /\ i <= index (dispatch rest nx i s).2.
Proof.
  revert i s. induction rest as [| fn rest IH]; intros i s;
    rewrite dispatch_unfold; apply guarded_reaches; intros s';
    apply invoke_reaches; intros s''.
  - apply dispatch_beyond_reaches.
  - apply IH.
Qed.

(** Once the cursor has reached [j], a body whose [next] is [dispatch(j)]
    gets the rejection from every call. *)
Lemma run_refused rest nx j p s :
  j <= index s -> run (dispatch rest nx j) p s = run (refuse j) p s.
Proof.
  revert s. induction p as [c | k IH | c k IH | k IH]; intros s Hj; simpl.
  - reflexivity.
  - by apply IH.
  - by apply IH.
  - rewrite dispatch_refuse by exact Hj. simpl. by apply IH.
Qed.

(** **** What the history tells *)

Lemma run_tracks E e0 next p s :
  awaits p -> tracks E (Rejected e0) next ->
  exists t, history (run next p s).2 = t ++ history s
            /\ (Exists E t -> settle (run next p s).1 = Rejected e0).
Proof.
  intros Hp Hn. revert s.
  induction Hp as [c | k _ IH | c k _ IH | k Hrej _ IH]; intros s; simpl.
  - exists []. split; [reflexivity |]. intros H. by apply Exists_nil in H.
  - apply IH.
  - apply (IH (set_context c s)).
  - destruct (Hn s) as (t1 & Ht1 & HR1).
    destruct (next s) as [r s1]. simpl in Ht1, HR1.
    destruct r as [v | e].
    + destruct (IH v s1) as (t2 & Ht2 & HR2).
      exists (t2 ++ t1). split.
      * rewrite Ht2, Ht1. by rewrite app_assoc.
      * intros [H | H]%Exists_app; [by apply HR2 |].
        specialize (HR1 H). discriminate HR1.
    + exists t1.
      destruct (Hrej e) as [-> | ->]; simpl; (split; [exact Ht1 | exact HR1]).
Qed.

Lemma run_confined (P : event -> Prop) next p s :
  confined P next ->
  exists t, history (run next p s).2 = t ++ history s /\ Forall P t.
Proof.
  intros Hn. revert s.
  induction p as [c | k IH | c k IH | k IH]; intros s; simpl.
  - by exists [].
  - apply IH.
  - apply (IH (set_context c s)).
  - destruct (Hn s) as (t1 & Ht1 & HP1).
    destruct (next s) as [r s1]. simpl in Ht1.
    destruct (IH r s1) as (t2 & Ht2 & HP2).
    exists (t2 ++ t1). split.
    + rewrite Ht2, Ht1. by rewrite app_assoc.
    + by apply Forall_app.
Qed.


Lemma guarded_tracks E e0 i d :
  (E (Refused i) -> e0 = multiple) ->
  tracks E (Rejected e0) d -> tracks E (Rejected e0) (guarded i d).
Proof.
  intros HE Hd s. unfold guarded.
  destruct (Z.leb_spec i (index s)) as [Hle | Hlt]; simpl.
  - exists [Refused i]. split; [reflexivity |].
    intros H. apply Exists_cons in H as [H | H].
    + by rewrite (HE H).
    + by apply Exists_nil in H.
  - apply (Hd (set_index i s)).
Qed.

Lemma invoke_tracks E e0 i fn next :
  ~ E (Called i) -> awaits_fn fn ->
  tracks E (Rejected e0) next -> tracks E (Rejected e0) (invoke i fn next).
Proof.
  intros HE Hfn Hn s. unfold invoke.
  destruct (falsy fn).
  { exists []. split; [reflexivity |]. intros H. by apply Exists_nil in H. }
  assert (Hone : forall x : promise, Exists E [Called i] -> x = Rejected e0).
  { intros x H. apply Exists_cons in H as [H | H]; [done |].
    by apply Exists_nil in H. }
  destruct fn as [v | f | l]; simpl.
  - exists [Called i]. split; [reflexivity | apply Hone].
  - destruct (run_tracks E e0 next f (log (Called i) s) (Hfn f eq_refl) Hn)
      as (t & Ht & HR).
    destruct (run next f (log (Called i) s)) as [c s']. simpl in *.
    exists (t ++ [Called i]). split.
    + rewrite Ht. by rewrite <- app_assoc.
    + intros [H | H]%Exists_app; [by apply HR |].
      apply Exists_cons in H as [H | H]; [done |]. by apply Exists_nil in H.
  - exists [Called i]. split; [reflexivity | apply Hone].
Qed.

Lemma dispatch_beyond_tracks E e0 i :
  (E (Refused i) -> e0 = multiple) ->
  tracks (C:=C) E (Rejected e0) (dispatch_beyond i).
Proof.
  intros HE. apply guarded_tracks; [exact HE |].
  intros s. exists []. split; [reflexivity |].
  intros H. by apply Exists_nil in H.
Qed.

Lemma dispatch_tracks_refused rest nx i :
  Forall awaits_fn rest -> awaits_fn nx ->
  tracks is_refused (Rejected multiple) (dispatch rest nx i).
Proof.
  intros Hrest Hnx. revert i.
  induction Hrest as [| fn rest Hfn _ IH]; intros i;
    rewrite dispatch_unfold; (apply guarded_tracks; [done |]);
    (apply invoke_tracks; [by intros [j Hj] | done |]).
  - by apply dispatch_beyond_tracks.
  - apply IH.
Qed.

Lemma invoke_confined (P : event -> Prop) i fn next :
  P (Called i) -> confined P next -> confined P (invoke i fn next).
Proof.
  intros HP Hn s. unfold invoke.
  destruct (falsy fn); [by exists [] |].
  destruct fn as [v | f | l]; simpl.
  - exists [Called i]. split; [reflexivity | by apply Forall_singleton].
  - destruct (run_confined P next f (log (Called i) s) Hn) as (t & Ht & HPt).
    destruct (run next f (log (Called i) s)) as [c s']. simpl in *.
    exists (t ++ [Called i]). split.
    + rewrite Ht. by rewrite <- app_assoc.
    + apply Forall_app. split; [done | by apply Forall_singleton].
  - exists [Called i]. split; [reflexivity | by apply Forall_singleton].
Qed.

Lemma guarded_confined (P : event -> Prop) i d :
  P (Refused i) -> confined P d -> confined P (guarded i d).
Proof.
  intros HP Hd s. unfold guarded.
  destruct (Z.leb_spec i (index s)) as [Hle | Hlt]; simpl.
  - exists [Refused i]. split; [reflexivity | by apply Forall_singleton].
  - apply (Hd (set_index i s)).
Qed.


(** **** Failures on the way out *)











(** *** The claims about the composer *)

(** C1, as amended. A [dispatch(i)] call with [i] not above the cursor
    returns a promise rejected with the "next() called multiple times" error
    and enters no middleware; inside one middleware every [next()] after the
    first is such a call; and the pipeline's own promise is that rejection
    whenever every middleware (and the final [next]) passes on the failure of
    the [next()] calls it makes. *)
Theorem next_again_is_rejected (fns : list (jsval C)) (nx : jsval C) :
  (forall i s, i <= index s ->
     dispatch fns nx i s = (Rejected multiple, log (Refused i) s))
  /\ (forall j k s,
        run (dispatch fns nx j) (CallNext k) s =
        let '(r, s') := dispatch fns nx j s in run (refuse j) (k r) s')
  /\ (Forall awaits_fn fns -> awaits_fn nx -> forall ctx,
        Exists is_refused (history (composed fns ctx nx).2) ->
        (composed fns ctx nx).1 = Rejected multiple).
Proof.
  split; [| split].
  - intros i s Hle. by apply dispatch_refuse.
  - intros j k s. simpl.
    pose proof (dispatch_reaches fns nx j s) as [_ Hj].
    destruct (dispatch fns nx j s) as [r s']. simpl in Hj.
    by apply run_refused.
  - intros Hfns Hnx ctx. unfold composed.
    destruct (dispatch_tracks_refused fns nx 0 Hfns Hnx (State (-1) ctx []))
      as (t & Ht & HR).
    simpl in Ht. rewrite app_nil_r in Ht. rewrite Ht. exact HR.
Qed.


(** C3. [compose] throws its TypeError at once, before any composed function
    exists, when its argument is not an array and when an element of the
    array is not a function; an array of functions is accepted. *)
Theorem compose_validates (middleware : jsval C) :
  (isArray middleware = false ->
     compose middleware = inl (TypeError "Middleware stack must be an array!"))
  /\ (forall fns fn,
        middleware = JArr fns -> In fn fns -> is_function fn = false ->
        compose middleware =
        inl (TypeError "Middleware must be composed of functions!"))
  /\ (forall fns,
        middleware = JArr fns -> Forall (fun fn => is_function fn = true) fns ->
        compose middleware = inr (composed fns)).
Proof.
  split; [| split].
  - by destruct middleware.
  - intros fns fn -> Hin Hfn. simpl.
    destruct (forallb is_function fns) eqn:Hall; [| reflexivity].
    rewrite forallb_forall in Hall. specialize (Hall fn Hin). congruence.
  - intros fns -> Hall. simpl.
    replace (forallb is_function fns) with true; [reflexivity |].
    symmetry. apply forallb_forall. intros fn Hin.
    rewrite Forall_forall in Hall. apply Hall. by apply list_elem_of_In.
Qed.

End Facts.

(** *** The claims at sample pipelines *)

Lemma twice_awaited_awaits : awaits twice_awaited.
Proof.
  apply awaits_next; [intros e; by left |].
  intros v. apply awaits_next; [intros e; by left |].
  intros v'. apply awaits_done.
Qed.

Lemma pass_awaits : awaits pass.
Proof.
  apply awaits_next; [intros e; by left | intros v; apply awaits_done].
Qed.

(** [async (ctx, next) => { await next(); await next() }], alone or behind
    [(ctx, next) => next()], makes the pipeline reject. *)
Lemma next_again_is_rejected_sample :
  (composed [JFun pass; JFun twice_awaited] tt (JData VUndefined)).1
  = Rejected multiple.
Proof.
  apply (proj2 (proj2 (next_again_is_rejected
                         [JFun pass; JFun twice_awaited] (JData VUndefined)))).
  - constructor; [| constructor; [| constructor]]; intros f Hf;
      injection Hf as <-; [apply pass_awaits | apply twice_awaited_awaits].
  - intros f Hf. discriminate Hf.
  - apply Exists_exists. exists (Refused 2). split; [| by exists 2].
    vm_compute. apply list_elem_of_here.
Defined.

(** C1 as stated fails: [(ctx, next) => { next(); next() }] trips the guard
    and the pipeline still resolves. *)
Lemma unawaited_second_next_resolves :
  (composed [JFun twice_unawaited] tt (JData VUndefined)).1 = Resolved VUndefined
  /\ history (composed [JFun twice_unawaited] tt (JData VUndefined)).2
     = [Refused 1; Called 0].
Proof. split; reflexivity. Qed.



Lemma compose_validates_sample :
  compose (C:=unit) (JData (VStr "fn"))
  = inl (TypeError "Middleware stack must be an array!")
  /\ compose (C:=unit) (JArr [JFun noop; JData VNull])
     = inl (TypeError "Middleware must be composed of functions!")
  /\ compose (JArr [JFun noop; JFun pass]) = inr (composed [JFun noop; JFun pass]).
Proof.
  split; [| split].
  - apply (proj1 (compose_validates (JData (VStr "fn")))). reflexivity.
  - apply (proj1 (proj2 (compose_validates (JArr [JFun noop; JData VNull])))
             [JFun noop; JData VNull] (JData VNull));
      [reflexivity | simpl; tauto | reflexivity].
  - apply (proj2 (proj2 (compose_validates (JArr [JFun noop; JFun pass])))).
    + reflexivity.
    + repeat constructor.
Defined.

End ComposeFacts.

(** ** The test for a leading [<] *)

Module StringFacts.

(** Taking one white-space character off shortens the string. *)
Lemma strip_space_shorter (s r : string) :
  strip_space s = Some r -> (String.length r < String.length s)%nat.
Proof.
  unfold strip_space.
  destruct s as [| c1 [| c2 [| c3 r3]]]; try discriminate;
    repeat case_match; try discriminate;
    intros [= <-]; simpl; lia.
Qed.

(** More fuel than the length of the string changes nothing. *)
Lemma leading_lt_from_enough (fuel : nat) (s : string) :
  (String.length s <= fuel)%nat -> leading_lt_from fuel s = leading_lt s.
Proof.
  unfold leading_lt. remember (String.length s) as n eqn:Hn.
  revert s fuel Hn.
  induction n as [n IH] using lt_wf_ind; intros s fuel Hn Hfuel.
  destruct s as [| c s']; [subst n; by destruct fuel |].
  simpl in Hn. subst n.
  destruct fuel as [| fuel]; [simpl in Hfuel; lia |].
  cbn [leading_lt_from].
  destruct (nat_of_ascii c =? 60)%nat; [reflexivity |].
  destruct (strip_space (String c s')) as [r |] eqn:Hstrip; [| reflexivity].
  pose proof (strip_space_shorter _ _ Hstrip) as Hshort. simpl in Hshort.
  rewrite (IH (String.length r)) by (simpl in *; lia).
  symmetry. apply (IH (String.length r)); lia.
Qed.

(** A string that starts with [<] passes, and so does one that starts with
    white space in front of a string that passes; a string that starts with
    anything else does not. *)
Lemma leading_lt_here (s : string) : leading_lt (String "<" s) = true.
Proof. reflexivity. Qed.

Lemma leading_lt_skip (s r : string) :
  strip_space s = Some r -> leading_lt s = leading_lt r.
Proof.
  intros Hstrip. pose proof (strip_space_shorter _ _ Hstrip) as Hshort.
  destruct s as [| c s']; [discriminate |].
  unfold leading_lt at 1. cbn [String.length leading_lt_from].
  destruct (nat_of_ascii c =? 60)%nat eqn:Hc.
  - (* [<] is no white space *)
    apply Nat.eqb_eq in Hc. unfold strip_space in Hstrip.
    rewrite Hc in Hstrip. cbn in Hstrip.
    destruct s' as [| c2 [| c3 r3]]; discriminate.
  - rewrite Hstrip. apply leading_lt_from_enough. simpl in Hshort. lia.
Qed.

Lemma leading_lt_other (c : ascii) (s : string) :
  (nat_of_ascii c =? 60)%nat = false -> strip_space (String c s) = None ->
  leading_lt (String c s) = false.
Proof.
  intros Hc Hstrip. unfold leading_lt. cbn [String.length leading_lt_from].
  by rewrite Hc, Hstrip.
Qed.

End StringFacts.

(** ** The request facade *)

Module RequestFacts.

Import Request.

(** *** Strings *)

Lemma append_cons (c : ascii) (a b : string) :
  String c a +:+ b = String c (a +:+ b).
Proof. reflexivity. Qed.

Lemma append_nil_l (b : string) : "" +:+ b = b.
Proof. reflexivity. Qed.









(** *** The split at the first [?] *)






(** *** The loop of the fast path, without indices *)







(** *** What the parser gives and takes *)

















(** *** The claim about the accessors *)


(** *** The claim at a sample request *)




End RequestFacts.

(** ** The response facade *)

Module ResponseFacts.

Import Response RequestFacts.

Section Facts.

Context `{Collaborators}.

Implicit Types (c : ctx) (v : value) (code : Z).

(** *** The pieces of the setters, field by field *)

Lemma remove_sent field c : headerSent c = true -> remove field c = c.
Proof. intros Hs. unfold remove. by rewrite Hs. Qed.

Lemma remove_live field c :
  headerSent c = false -> remove field c = with_res (removeHeader field) c.
Proof. intros Hs. unfold remove. by rewrite Hs. Qed.

Lemma set_sent field v c : headerSent c = true -> set field v c = c.
Proof. intros Hs. unfold set. by rewrite Hs. Qed.

Lemma set_live field v c :
  headerSent c = false ->
  set field v c = with_res (setHeader field (to_String v)) c.
Proof. intros Hs. unfold set. by rewrite Hs. Qed.

Lemma same_but_headers_refl c : same_but_headers c c.
Proof. by repeat split. Qed.

Lemma same_but_headers_trans c1 c2 c3 :
  same_but_headers c1 c2 -> same_but_headers c2 c3 -> same_but_headers c1 c3.
Proof.
  intros (? & ? & ? & Hs & ? & ? & ? & ? & Hh)
         (? & ? & ? & Hs' & ? & ? & ? & ? & Hh').
  repeat split; try congruence.
  intros Hsent. rewrite Hh', Hh; congruence.
Qed.

Lemma same_remove field c c' :
  same_but_headers c c' -> same_but_headers c (remove field c').
Proof.
  intros Hc. apply (same_but_headers_trans _ _ _ Hc).
  unfold remove. destruct (headerSent c') eqn:Hs; repeat split; try done.
  intros; congruence.
Qed.

Lemma same_set field v c c' :
  same_but_headers c c' -> same_but_headers c (set field v c').
Proof.
  intros Hc. apply (same_but_headers_trans _ _ _ Hc).
  unfold set. destruct (headerSent c') eqn:Hs; repeat split; try done.
  intros; congruence.
Qed.

Lemma same_set_type type c c' :
  same_but_headers c c' -> same_but_headers c (set_type type c').
Proof.
  intros Hc. unfold set_type. destruct (getType type) as [t |];
    [destruct (nonempty t) |]; auto using same_set, same_remove.
Qed.

Lemma same_set_length n c c' :
  same_but_headers c c' -> same_but_headers c (set_length n c').
Proof. intros Hc. unfold set_length. by apply same_set. Qed.

Lemma same_listeners id c c' :
  same_but_headers c c' -> same_but_headers c (with_stream_listeners id c').
Proof. intros Hc. apply (same_but_headers_trans _ _ _ Hc). by repeat split. Qed.

Ltac same :=
  repeat first
    [ apply same_but_headers_refl
    | apply same_remove
    | apply same_set_type
    | apply same_set_length
    | apply same_set
    | apply same_listeners
    | match goal with
      | |- context [if ?b then _ else _] => destruct b
      end ].

Lemma set_type_same' type c : same_but_headers c (set_type type c).
Proof. apply same_set_type, same_but_headers_refl. Qed.

Lemma strip_same c : same_but_headers c (strip c).
Proof. unfold strip. same. Qed.

Lemma describe_same original v c : same_but_headers c (describe original v c).
Proof. unfold describe. destruct v; same. Qed.

Lemma strip_clears c :
  headerSent c = false ->
  header (strip c) !! "content-type" = None
  /\ header (strip c) !! "content-length" = None
  /\ header (strip c) !! "transfer-encoding" = None.
Proof.
  intros Hs. unfold strip.
  rewrite (remove_live "Content-Type" c Hs).
  rewrite (remove_live "Content-Length") by exact Hs.
  rewrite (remove_live "Transfer-Encoding") by exact Hs.
  unfold header. simpl. unfold removeHeader. simpl.
  change (toLowerCase "Content-Type") with "content-type".
  change (toLowerCase "Content-Length") with "content-length".
  change (toLowerCase "Transfer-Encoding") with "transfer-encoding".
  repeat split; by simplify_map_eq.
Qed.

Lemma stamp_fields code c :
  status (stamp code c) = code
  /\ _explicitStatus (stamp code c) = true
  /\ body (stamp code c) = body c
  /\ header (stamp code c) = header c
  /\ headerSent (stamp code c) = headerSent c
  /\ req (stamp code c) = req c
  /\ respond_flag (stamp code c) = respond_flag c
  /\ writable (stamp code c) = writable c.
Proof. unfold stamp. simpl. by destruct (httpVersionMajor (req c) <? 2). Qed.

Lemma stamp_with_body code v c :
  status (stamp code (with_body v c)) = code
  /\ _explicitStatus (stamp code (with_body v c)) = true
  /\ body (stamp code (with_body v c)) = v
  /\ header (stamp code (with_body v c)) = header c
  /\ headerSent (stamp code (with_body v c)) = headerSent c
  /\ req (stamp code (with_body v c)) = req c
  /\ respond_flag (stamp code (with_body v c)) = respond_flag c
  /\ writable (stamp code (with_body v c)) = writable c.
Proof. apply (stamp_fields code (with_body v c)). Qed.

(** *** The status setter *)

Lemma set_status_with_sent k code c :
  headerSent c = true -> set_status_with k code c = Ok c.
Proof. intros Hs. unfold set_status_with. by rewrite Hs. Qed.

Lemma set_status_with_live k code c :
  headerSent c = false -> 100 <= code <= 999 ->
  set_status_with k code c =
  if truthy (body c) && statuses_empty code then k (stamp code c)
  else Ok (stamp code c).
Proof.
  intros Hs Hcode. unfold set_status_with. rewrite Hs.
  replace ((100 <=? code) && (code <=? 999)) with true
    by (symmetry; apply andb_true_iff; split; apply Z.leb_le; lia).
  simpl. destruct (stamp_fields code c) as (_ & _ & -> & _). reflexivity.
Qed.


(** *** The body setter in closed form *)

Lemma set_body_nullish v c :
  nullish v = true ->
  set_body v c =
  Ok (strip (if statuses_empty (status c) || headerSent c then with_body v c
             else stamp 204 (with_body v c))).
Proof.
  intros Hv. unfold set_body, set_body_with. rewrite Hv.
  change (status (with_body v c)) with (status c).
  destruct (statuses_empty (status c)); [reflexivity |].
  destruct (headerSent c) eqn:Hs; simpl.
  - by rewrite set_status_with_sent.
  - rewrite set_status_with_live by (done || lia).
    change (body (with_body v c)) with v.
    by destruct v.
Qed.

Lemma set_body_value v c :
  nullish v = false ->
  set_body v c =
  Ok (describe (_body c) v
        (if _explicitStatus c || headerSent c then with_body v c
         else stamp 200 (with_body v c))).
Proof.
  intros Hv. unfold set_body, set_body_with. rewrite Hv.
  change (_explicitStatus (with_body v c)) with (_explicitStatus c).
  destruct (_explicitStatus c); [reflexivity |].
  destruct (headerSent c) eqn:Hs; simpl.
  - by rewrite set_status_with_sent.
  - rewrite set_status_with_live by (done || lia).
    by rewrite andb_false_r.
Qed.

(** The definitions satisfy the mutual equations of the source. *)
Lemma set_status_unfold code c :
  set_status code c = set_status_with (set_body VNull) code c.
Proof. reflexivity. Qed.

Lemma set_body_unfold v c :
  set_body v c = set_body_with set_status v c.
Proof.
  destruct (nullish v) eqn:Hv.
  - rewrite set_body_nullish by done. unfold set_body_with. rewrite Hv.
    change (status (with_body v c)) with (status c).
    destruct (statuses_empty (status c)); [reflexivity |].
    destruct (headerSent c) eqn:Hs; simpl; unfold set_status.
    + by rewrite set_status_with_sent.
    + rewrite set_status_with_live by (done || lia).
      change (body (with_body v c)) with v. by destruct v.
  - rewrite set_body_value by done. unfold set_body_with. rewrite Hv.
    change (_explicitStatus (with_body v c)) with (_explicitStatus c).
    destruct (_explicitStatus c); [reflexivity |].
    destruct (headerSent c) eqn:Hs; simpl; unfold set_status.
    + by rewrite set_status_with_sent.
    + rewrite set_status_with_live by (done || lia).
      by rewrite andb_false_r.
Qed.

(** *** Header lookups through the setters *)

Lemma lookup_set_ne field v c k :
  toLowerCase field <> k -> header (set field v c) !! k = header c !! k.
Proof.
  intros Hk. unfold set. destruct (headerSent c); [reflexivity |].
  unfold header. simpl. by apply lookup_insert_ne.
Qed.

Lemma lookup_set_live field v c :
  headerSent c = false ->
  header (set field v c) !! toLowerCase field = Some (to_String v).
Proof.
  intros Hs. rewrite set_live by done. unfold header. simpl.
  by apply lookup_insert_eq.
Qed.

Lemma lookup_remove_ne field c k :
  toLowerCase field <> k -> header (remove field c) !! k = header c !! k.
Proof.
  intros Hk. unfold remove. destruct (headerSent c); [reflexivity |].
  unfold header. simpl. by apply lookup_delete_ne.
Qed.

Lemma lookup_remove_live field c :
  headerSent c = false -> header (remove field c) !! toLowerCase field = None.
Proof.
  intros Hs. rewrite remove_live by done. unfold header. simpl.
  by apply lookup_delete_eq.
Qed.

Lemma lookup_set_type_ne type c k :
  k <> "content-type" -> header (set_type type c) !! k = header c !! k.
Proof.
  intros Hk. unfold set_type.
  destruct (getType type) as [t |]; [destruct (nonempty t) |];
    (apply lookup_set_ne || apply lookup_remove_ne);
    change (toLowerCase "Content-Type") with "content-type"; congruence.
Qed.

Lemma lookup_set_type_live type c :
  headerSent c = false ->
  header (set_type type c) !! "content-type" = type_header type.
Proof.
  intros Hs. unfold set_type, type_header.
  destruct (getType type) as [t |]; [destruct (nonempty t) |].
  - by apply (lookup_set_live "Content-Type" (VStr t)).
  - by apply (lookup_remove_live "Content-Type").
  - by apply (lookup_remove_live "Content-Type").
Qed.

Lemma lookup_set_length_ne n c k :
  k <> "content-length" -> header (set_length n c) !! k = header c !! k.
Proof.
  intros Hk. unfold set_length. apply lookup_set_ne.
  change (toLowerCase "Content-Length") with "content-length". congruence.
Qed.

Lemma lookup_describe_string_ne original s c k :
  k <> "content-type" -> k <> "content-length" ->
  header (describe original (VStr s) c) !! k = header c !! k.
Proof.
  intros Hct Hcl. unfold describe.
  rewrite lookup_set_length_ne by done.
  destruct (negb (present (header c !! "content-type"))); [| reflexivity].
  by apply lookup_set_type_ne.
Qed.

(** The content type of a string body. *)
Lemma describe_string_type original s c :
  header (describe original (VStr s) c) !! "content-type" =
  if headerSent c || present (header c !! "content-type")
  then header c !! "content-type"
  else type_header (if leading_lt s then "html" else "text").
Proof.
  unfold describe. rewrite lookup_set_length_ne by done.
  destruct (present (header c !! "content-type")) eqn:Hp; simpl.
  { by rewrite orb_true_r. }
  rewrite orb_false_r. destruct (headerSent c) eqn:Hs.
  - unfold set_type.
    destruct (getType _) as [t |]; [destruct (nonempty t) |];
      by rewrite ?set_sent, ?remove_sent.
  - by apply lookup_set_type_live.
Qed.

(** The context the body setter works on once the status is dealt with. *)
Lemma promoted_fields v c :
  let c1 := if _explicitStatus c || headerSent c then with_body v c
            else stamp 200 (with_body v c) in
  status c1 = (if _explicitStatus c || headerSent c then status c else 200)
  /\ header c1 = header c /\ headerSent c1 = headerSent c
  /\ _explicitStatus c1 = (_explicitStatus c || negb (headerSent c))
  /\ body c1 = v /\ req c1 = req c
  /\ respond_flag c1 = respond_flag c /\ writable c1 = writable c.
Proof.
  cbv zeta. destruct (_explicitStatus c) eqn:He; cbn [orb negb].
  { by repeat split. }
  destruct (headerSent c) eqn:Hs; cbn [orb negb].
  { by repeat split. }
  destruct (stamp_with_body 200 v c) as (? & ? & ? & ? & ? & ? & ? & ?).
  repeat split; congruence.
Qed.

(** What a successful assignment leaves in the fields. *)
Lemma set_body_value_fields v c :
  nullish v = false ->
  exists c', set_body v c = Ok c'
    /\ status c' = (if _explicitStatus c || headerSent c then status c else 200)
    /\ body c' = v
    /\ headerSent c' = headerSent c
    /\ _explicitStatus c' = (_explicitStatus c || negb (headerSent c))
    /\ respond_flag c' = respond_flag c
    /\ writable c' = writable c.
Proof.
  intros Hv. rewrite set_body_value by done. eexists. split; [reflexivity |].
  destruct (promoted_fields v c) as (? & ? & ? & ? & ? & ? & ? & ?).
  destruct (describe_same (_body c) v
              (if _explicitStatus c || headerSent c then with_body v c
               else stamp 200 (with_body v c)))
    as (? & ? & ? & ? & ? & ? & ? & _).
  repeat split; congruence.
Qed.

Lemma set_status_fields code c :
  headerSent c = false -> 100 <= code <= 999 ->
  exists c', set_status code c = Ok c'
    /\ status c' = code
    /\ headerSent c' = false
    /\ _explicitStatus c' = true
    /\ respond_flag c' = respond_flag c
    /\ writable c' = writable c
    /\ (if truthy (body c) && statuses_empty code then body_gone c'
        else body c' = body c).
Proof.
  intros Hs Hcode. unfold set_status.
  rewrite set_status_with_live by done.
  destruct (stamp_fields code c) as (Hst & He & Hb & Hh & Hhs & Hr & Hf & Hw).
  destruct (truthy (body c) && statuses_empty code) eqn:Hcase.
  - apply andb_true_iff in Hcase as [_ Hempty].
    rewrite set_body_nullish by done. rewrite Hst, Hempty. cbn [orb].
    eexists. split; [reflexivity |].
    destruct (strip_same (with_body VNull (stamp code c)))
      as (-> & Hb' & -> & -> & _ & -> & -> & _).
    destruct (strip_clears (with_body VNull (stamp code c))) as (? & ? & ?).
    { change (headerSent (stamp code c) = false). congruence. }
    change (status (with_body VNull (stamp code c))) with (status (stamp code c)).
    change (headerSent (with_body VNull (stamp code c)))
      with (headerSent (stamp code c)).
    change (_explicitStatus (with_body VNull (stamp code c)))
      with (_explicitStatus (stamp code c)).
    change (respond_flag (with_body VNull (stamp code c)))
      with (respond_flag (stamp code c)).
    change (writable (with_body VNull (stamp code c)))
      with (writable (stamp code c)).
    change (body (with_body VNull (stamp code c))) with VNull in Hb'.
    unfold body_gone. repeat split; congruence.
  - eexists. split; [reflexivity |]. repeat split; congruence.
Qed.

(** The headers of a body assigned where there were none. *)
Lemma describe_bare original v c :
  headerSent c = false ->
  header c !! "content-type" = None -> header c !! "content-length" = None ->
  header (describe original v c) !! "content-type" = type_header (body_type v)
  /\ header (describe original v c) !! "content-length" = body_length v.
Proof.
  intros Hs Hct Hcl.
  assert (Hty : forall type x, headerSent x = false ->
                               headerSent (set_type type x) = false).
  { intros type x Hx.
    destruct (set_type_same' type x) as (_ & _ & _ & -> & _). exact Hx. }
  assert (Hrm : headerSent (remove "Content-Length" c) = false
                /\ header (remove "Content-Length" c) !! "content-length" = None).
  { split; [| by apply (lookup_remove_live "Content-Length")].
    destruct (same_remove "Content-Length" c c (same_but_headers_refl c))
      as (_ & _ & _ & -> & _). exact Hs. }
  destruct Hrm as [Hrs Hrl].
  assert (Hjson : header (set_type "json" (remove "Content-Length" c))
                    !! "content-type" = type_header "json"
                  /\ header (set_type "json" (remove "Content-Length" c))
                       !! "content-length" = None).
  { split; [by apply lookup_set_type_live |].
    by rewrite lookup_set_type_ne. }
  unfold describe. rewrite Hct. cbn [present negb].
  destruct v as [| | b | n | s | bytes | id | id | nm msg];
    cbn [body_type body_length]; try exact Hjson.
  - split.
    + rewrite lookup_set_length_ne by done. by apply lookup_set_type_live.
    + apply (lookup_set_live "Content-Length" (VNum (byteLength s))).
      by apply Hty.
  - split.
    + rewrite lookup_set_length_ne by done. by apply lookup_set_type_live.
    + apply (lookup_set_live "Content-Length" (VNum (Z.of_nat (length bytes)))).
      by apply Hty.
  - set (y := with_stream_listeners id c).
    assert (Hy : headerSent y = false /\ header y = header c) by done.
    destruct Hy as [Hys Hyh].
    set (z := if negb (nullish original) && differs_from_stream original id
              then remove "Content-Length" y else y).
    assert (Hz : headerSent z = false
                 /\ header z !! "content-length" = None).
    { subst z.
      destruct (negb (nullish original) && differs_from_stream original id).
      - split; [| by apply (lookup_remove_live "Content-Length")].
        destruct (same_remove "Content-Length" y y (same_but_headers_refl y))
          as (_ & _ & _ & -> & _). exact Hys.
      - by rewrite Hyh. }
    destruct Hz as [Hzs Hzl]. split.
    + by apply lookup_set_type_live.
    + by rewrite lookup_set_type_ne.
Qed.

Lemma redirect_back_unfold alt c :
  redirect "back" alt c =
  let url := or_else (Some (ctx_get "Referrer" c)) (or_else alt "/") in
  let c1 := set "Location" (VStr url) c in
  match (if statuses_redirect (status c1) then Ok c1 else set_status 302 c1) with
  | Ok c2 =>
      if present (ctx_accepts "html" c2)
      then set_body (VStr (html_notice (escape url)))
             (set_type "text/html; charset=utf-8" c2)
      else set_body (VStr (text_notice url))
             (set_type "text/plain; charset=utf-8" c2)
  | Thrown e => Thrown e
  end.
Proof. reflexivity. Qed.

(** *** The claims about the facade *)

(** C5, as amended. Assigning a non-null body sets the status code to 200
    when the headers are not yet sent and the status was not explicitly set;
    it leaves the status code as it is when the status was explicitly set,
    and also when the headers are already sent. *)
Theorem body_promotes_status v c :
  nullish v = false ->
  (headerSent c = false -> _explicitStatus c = false ->
     exists c', set_body v c = Ok c' /\ status c' = 200)
  /\ (_explicitStatus c = true ->
        exists c', set_body v c = Ok c' /\ status c' = status c)
  /\ (headerSent c = true ->
        exists c', set_body v c = Ok c' /\ status c' = status c).
Proof.
  intros Hv. rewrite set_body_value by done.
  destruct (promoted_fields v c) as (Hst & _).
  split; [| split]; intros; eexists; (split; [reflexivity |]);
    destruct (describe_same (_body c) v
                (if _explicitStatus c || headerSent c then with_body v c
                 else stamp 200 (with_body v c))) as (-> & _);
    rewrite Hst.
  - by replace (_explicitStatus c) with false; replace (headerSent c) with false.
  - by replace (_explicitStatus c) with true.
  - replace (headerSent c) with true. by rewrite orb_true_r.
Qed.

(** C6, as amended. With the headers not yet sent and no Content-Type set
    (none, or an empty one), assigning a string body sets the Content-Type to
    what the type lookup gives for [html] when the string matches
    [/^\s*</] (a [<] after white space only) and to what it gives for [text]
    otherwise; with a Content-Type already set, the Content-Type stays. *)
Theorem string_body_type s c :
  (headerSent c = false -> present (header c !! "content-type") = false ->
     exists c', set_body (VStr s) c = Ok c'
       /\ header c' !! "content-type"
          = type_header (if leading_lt s then "html" else "text"))
  /\ (present (header c !! "content-type") = true ->
        exists c', set_body (VStr s) c = Ok c'
          /\ header c' !! "content-type" = header c !! "content-type").
Proof.
  rewrite set_body_value by done.
  destruct (promoted_fields (VStr s) c) as (_ & Hh & Hs & _).
  split; intros; eexists; (split; [reflexivity |]);
    rewrite describe_string_type, Hh, Hs.
  - by replace (headerSent c) with false;
      replace (present (header c !! "content-type")) with false.
  - replace (present (header c !! "content-type")) with true.
    by rewrite orb_true_r.
Qed.

(** C7, as amended. With the headers not yet sent, assigning a null (or
    undefined) body removes Content-Type, Content-Length and
    Transfer-Encoding, and sets the status code to 204 unless it already is
    one of 204, 205 and 304. *)
Theorem null_body_strips v c :
  nullish v = true -> headerSent c = false ->
  exists c', set_body v c = Ok c'
    /\ header c' !! "content-type" = None
    /\ header c' !! "content-length" = None
    /\ header c' !! "transfer-encoding" = None
    /\ status c' = (if statuses_empty (status c) then status c else 204)
    /\ body c' = v.
Proof.
  intros Hv Hs. rewrite set_body_nullish by done. rewrite Hs, orb_false_r.
  eexists. split; [reflexivity |].
  set (c1 := if statuses_empty (status c) then with_body v c
             else stamp 204 (with_body v c)).
  assert (H1 : headerSent c1 = false /\ body c1 = v
               /\ status c1 = (if statuses_empty (status c) then status c else 204)).
  { subst c1. destruct (statuses_empty (status c)); [by repeat split |].
    destruct (stamp_with_body 204 v c) as (? & ? & ? & ? & ? & _).
    repeat split; congruence. }
  destruct H1 as (Hs1 & Hb1 & Hst1).
  destruct (strip_clears c1 Hs1) as (? & ? & ?).
  destruct (strip_same c1) as (? & ? & _).
  repeat split; congruence.
Qed.

(** C9, as amended. With the headers not yet sent, [redirect("back")] sets
    Location to the request's Referrer, or without one to [alt], or without
    that to ["/"]; in each of these cases the body becomes the HTML notice
    around the escaped URL when the client accepts html, and the plain-text
    notice otherwise; and when the current status, if it is a redirect code,
    was set through the status setter, the status code becomes 302 unless it
    already is a redirect code. *)
Theorem redirect_back alt c :
  headerSent c = false ->
  exists c' url,
    redirect "back" alt c = Ok c'
    /\ url = (if nonempty (ctx_get "Referrer" c) then ctx_get "Referrer" c
              else or_else alt "/")
    /\ header c' !! "location" = Some url
    /\ body c' = VStr (if present (ctx_accepts "html" c)
                       then html_notice (escape url) else text_notice url)
    /\ ((statuses_redirect (status c) = true -> _explicitStatus c = true) ->
        status c' = (if statuses_redirect (status c) then status c else 302)).
Proof.
  intros Hs.
  set (url := if nonempty (ctx_get "Referrer" c) then ctx_get "Referrer" c
              else or_else alt "/").
  assert (Hurl : or_else (Some (ctx_get "Referrer" c)) (or_else alt "/") = url)
    by reflexivity.
  assert (Hloc :
    let c1 := set "Location" (VStr url) c in
    header c1 !! "location" = Some url /\ same_but_headers c c1).
  { split; [| by apply same_set, same_but_headers_refl].
    by apply (lookup_set_live "Location" (VStr url)). }
  assert (Hstep : forall c1, same_but_headers c c1 ->
    exists c2,
      (if statuses_redirect (status c1) then Ok c1 else set_status 302 c1) = Ok c2
      /\ header c2 = header c1 /\ headerSent c2 = false /\ req c2 = req c
      /\ status c2 = (if statuses_redirect (status c) then status c else 302)
      /\ _explicitStatus c2
         = (if statuses_redirect (status c) then _explicitStatus c else true)).
  { intros c1 (Hst & _ & He & Hs1 & Hr & _). rewrite Hst.
    destruct (statuses_redirect (status c)).
    - exists c1. repeat split; congruence.
    - exists (stamp 302 c1). unfold set_status.
      rewrite set_status_with_live by (lia || congruence).
      rewrite andb_false_r.
      destruct (stamp_fields 302 c1) as (? & ? & ? & ? & ? & ? & _).
      repeat split; congruence. }
  assert (Hfin : forall c2 n, headerSent c2 = false ->
    exists c', set_body (VStr n) c2 = Ok c'
      /\ header c' !! "location" = header c2 !! "location"
      /\ status c' = (if _explicitStatus c2 then status c2 else 200)
      /\ body c' = VStr n).
  { intros c2 n Hs2. rewrite set_body_value by done. eexists.
    split; [reflexivity |].
    destruct (promoted_fields (VStr n) c2) as (Hst & Hh & _ & _ & Hb & _).
    set (c3 := if _explicitStatus c2 || headerSent c2 then with_body (VStr n) c2
               else stamp 200 (with_body (VStr n) c2)) in *.
    destruct (describe_same (_body c2) (VStr n) c3) as (-> & -> & _).
    rewrite lookup_describe_string_ne by done.
    rewrite Hh, Hst, Hs2, orb_false_r. by repeat split. }
  assert (Hend : forall type n c2,
    header c2 !! "location" = Some url -> headerSent c2 = false ->
    status c2 = (if statuses_redirect (status c) then status c else 302) ->
    _explicitStatus c2
    = (if statuses_redirect (status c) then _explicitStatus c else true) ->
    exists c', set_body (VStr n) (set_type type c2) = Ok c'
      /\ header c' !! "location" = Some url
      /\ body c' = VStr n
      /\ ((statuses_redirect (status c) = true -> _explicitStatus c = true) ->
          status c' = (if statuses_redirect (status c) then status c else 302))).
  { intros type n c2 Hl2 Hs2 Hst2 He2.
    destruct (set_type_same' type c2) as (Hst3 & _ & He3 & Hs3 & _).
    destruct (Hfin (set_type type c2) n) as (c' & Hc' & Hl' & Hst' & Hb');
      [congruence |].
    exists c'. split; [exact Hc' |].
    rewrite Hl', lookup_set_type_ne by done.
    split; [exact Hl2 |]. split; [exact Hb' |].
    intros Hexp. rewrite Hst', He3, Hst3, He2, Hst2.
    destruct (statuses_redirect (status c)); [| reflexivity].
    by rewrite Hexp. }
  rewrite redirect_back_unfold. cbv zeta. rewrite Hurl.
  destruct Hloc as (Hl & Hsame).
  destruct (Hstep _ Hsame) as (c2 & -> & Hh2 & Hs2 & Hr2 & Hst2 & He2).
  replace (present (ctx_accepts "html" c2))
    with (present (ctx_accepts "html" c))
    by (unfold ctx_accepts, Request.accepts; by rewrite Hr2).
  assert (Hl2 : header c2 !! "location" = Some url) by (by rewrite Hh2).
  destruct (present (ctx_accepts "html" c)).
  - destruct (Hend "text/html; charset=utf-8" (html_notice (escape url)) c2
                Hl2 Hs2 Hst2 He2) as (c' & Hc' & Hl' & Hb' & Hst').
    by exists c', url.
  - destruct (Hend "text/plain; charset=utf-8" (text_notice url) c2
                Hl2 Hs2 Hst2 He2) as (c' & Hc' & Hl' & Hb' & Hst').
    by exists c', url.
Qed.

End Facts.

(** *** The claims at sample requests *)

Section Samples.

#[local] Existing Instance sample.

Lemma body_promotes_status_sample :
  exists c', set_body (VStr "ok") (Application.fresh plain_request None) = Ok c'
    /\ status c' = 200.
Proof.
  apply (proj1 (body_promotes_status (VStr "ok")
                  (Application.fresh plain_request None) eq_refl));
    reflexivity.
Defined.

(** C5 as stated fails: once [flushHeaders()] has sent the headers, a body
    assigned to a facade whose status was never set leaves the 404. *)
Lemma sent_headers_keep_status :
  _explicitStatus (flushHeaders (Application.fresh plain_request None)) = false
  /\ exists c',
       set_body (VStr "ok") (flushHeaders (Application.fresh plain_request None))
       = Ok c'
       /\ status c' = 404.
Proof. split; [reflexivity |]. eexists. split; reflexivity. Qed.

Lemma string_body_type_sample :
  exists c', set_body (VStr " <p>hi</p>") (Application.fresh plain_request None)
             = Ok c'
    /\ header c' !! "content-type" = Some "text/html; charset=utf-8".
Proof.
  destruct (proj1 (string_body_type " <p>hi</p>"
                     (Application.fresh plain_request None))
              eq_refl eq_refl) as (c' & Hc & Ht).
  exists c'. split; [exact Hc | exact Ht].
Defined.

(** C6 as stated fails: with the headers sent and no Content-Type set, a
    string body that starts with [<] leaves the response without any
    Content-Type. *)
Lemma sent_headers_keep_type_unset :
  header (flushHeaders (Application.fresh plain_request None)) !! "content-type"
  = None
  /\ exists c',
       set_body (VStr "<p>hi</p>")
         (flushHeaders (Application.fresh plain_request None)) = Ok c'
       /\ header c' !! "content-type" = None.
Proof. split; [reflexivity |]. eexists. split; reflexivity. Qed.

Lemma null_body_strips_sample :
  exists c',
    set_body VNull
      (set "Content-Type" (VStr "text/plain")
         (Application.fresh plain_request None)) = Ok c'
    /\ header c' !! "content-type" = None
    /\ header c' !! "content-length" = None
    /\ header c' !! "transfer-encoding" = None
    /\ status c' = 204
    /\ body c' = VNull.
Proof.
  apply (null_body_strips VNull
           (set "Content-Type" (VStr "text/plain")
              (Application.fresh plain_request None)));
    reflexivity.
Defined.

(** C7 as stated fails: with the headers sent, a null body leaves the
    Content-Type and the status code where they were. *)
Lemma sent_headers_keep_null_body_headers :
  exists c',
    set_body VNull
      (flushHeaders (set "Content-Type" (VStr "text/plain")
                       (Application.fresh plain_request None))) = Ok c'
    /\ header c' !! "content-type" = Some "text/plain"
    /\ status c' = 404.
Proof. eexists. repeat split; reflexivity. Qed.

Lemma redirect_back_sample :
  exists c',
    redirect "back" None (Application.fresh referred_request None) = Ok c'
    /\ header c' !! "location" = Some "http://x"
    /\ status c' = 302
    /\ body c' = VStr (html_notice "http://x").
Proof.
  destruct (redirect_back None (Application.fresh referred_request None)
              eq_refl) as (c' & url & Hc & -> & Hl & Hb & Hst).
  exists c'. split; [exact Hc |]. split; [exact Hl |].
  split; [| exact Hb].
  apply Hst. intros Hr. discriminate Hr.
Defined.

(** C9 as stated fails: with the headers sent, [redirect("back")] on a
    request with Referrer [http://x] from a client that accepts html sets no
    Location and leaves the 404. And a redirect code written to the raw
    response ([res.statusCode = 301]), which leaves the explicit-status flag
    unset, does not stay: the body assignment makes it 200. *)
Lemma sent_headers_keep_location_unset :
  ctx_get "Referrer" (flushHeaders (Application.fresh referred_request None))
  = "http://x"
  /\ ctx_accepts "html" (flushHeaders (Application.fresh referred_request None))
     = Some "html"
  /\ (exists c',
        redirect "back" None
          (flushHeaders (Application.fresh referred_request None)) = Ok c'
        /\ header c' !! "location" = None
        /\ status c' = 404)
  /\ (exists c',
        redirect "back" None
          (with_res (with_statusCode 301)
             (Application.fresh referred_request None)) = Ok c'
        /\ status c' = 200).
Proof.
  split; [reflexivity |]. split; [reflexivity |].
  split; eexists; repeat split; reflexivity.
Qed.

End Samples.

End ResponseFacts.

(** ** The finalizer *)

Module ApplicationFacts.

Import Response Application ResponseFacts.

Section Facts.

Context `{Collaborators}.

Implicit Types (c : ctx) (v : value) (code : Z).

Lemma statuses_empty_range code :
  statuses_empty code = true -> 100 <= code <= 999.
Proof.
  unfold statuses_empty. intros Hc.
  apply orb_true_iff in Hc as [Hc | Hc];
    [apply orb_true_iff in Hc as [Hc | Hc] |];
    apply Z.eqb_eq in Hc; lia.
Qed.

Lemma finished_not_writable c : finished (res c) = true -> ctx_writable c = false.
Proof. intros Hf. unfold ctx_writable, writable. by rewrite Hf. Qed.

(** The first two lines of [respond]. *)
Lemma respond_bypassed c : is_false (respond_flag c) = true -> respond c = Ok c.
Proof. intros Hf. unfold respond. by rewrite Hf. Qed.

Lemma respond_unwritable c : ctx_writable c = false -> respond c = Ok c.
Proof.
  intros Hw. unfold respond. rewrite Hw.
  by destruct (is_false (respond_flag c)).
Qed.

(** The branch of [respond] for the body-forbidden codes. *)
Lemma respond_empty c :
  is_false (respond_flag c) = false -> writable c = true ->
  statuses_empty (status c) = true -> headerSent c = false ->
  exists c', respond c = Ok c' /\ body_gone c'
    /\ ended (res c') = ended (res c) ++ [None].
Proof.
  intros Hf Hw He Hs. unfold respond.
  rewrite Hf. unfold ctx_writable, ctx_status, ctx_set_body.
  rewrite Hw, He. cbn [negb].
  rewrite set_body_nullish by done. rewrite He. cbn [orb mbind outcome_bind].
  eexists. split; [reflexivity |].
  destruct (strip_clears (with_body VNull c) Hs) as (? & ? & ?).
  destruct (strip_same (with_body VNull c))
    as (_ & Hb & _ & _ & _ & _ & _ & Hen & _).
  split; [by repeat split |].
  change (ended (res (with_res (res_end None) (strip (with_body VNull c)))))
    with (ended (res (strip (with_body VNull c))) ++ [None]).
  by rewrite Hen.
Qed.

(** *** The claims about the finalizer *)

(** C10. When the bypass flag is set ([ctx.respond === false]) or the
    response is not writable, as it is once finished, [respond] returns with
    the context, the response and what was written to it exactly as they
    were. *)
Theorem respond_leaves_alone c :
  (respond_flag c = VBool false -> respond c = Ok c)
  /\ (ctx_writable c = false -> respond c = Ok c)
  /\ (finished (res c) = true -> respond c = Ok c).
Proof.
  split; [| split].
  - intros Hf. apply respond_bypassed. by rewrite Hf.
  - apply respond_unwritable.
  - intros Hf. by apply respond_unwritable, finished_not_writable.
Qed.

(** C4, as amended. On a fresh facade and for a code among 204, 205 and
    304: assigning a truthy body and then the status leaves a null body and
    no Content-Type, Content-Length or Transfer-Encoding; assigning the
    status first leaves the body in place, with the Content-Type and the
    Content-Length of that body; and in either order, for every non-null
    body, the two assignments followed by [respond] on a writable response
    leave a null body and none of the three headers. *)
Theorem empty_status_drops_body rq sock code v :
  statuses_empty code = true -> nullish v = false ->
  (truthy v = true ->
     exists c', (c ← set_body v (fresh rq sock); set_status code c) = Ok c'
       /\ body_gone c')
  /\ (exists c', (c ← set_status code (fresh rq sock); set_body v c) = Ok c'
        /\ body c' = v
        /\ header c' !! "content-type" = type_header (body_type v)
        /\ header c' !! "content-length" = body_length v)
  /\ (writable (fresh rq sock) = true ->
        (exists c',
           (c ← set_body v (fresh rq sock); c ← set_status code c; respond c)
           = Ok c' /\ body_gone c')
        /\ (exists c',
              (c ← set_status code (fresh rq sock); c ← set_body v c; respond c)
              = Ok c' /\ body_gone c')).
Proof.
  intros Hcode Hv.
  pose proof (statuses_empty_range code Hcode) as Hrange.
  set (c0 := fresh rq sock).
  assert (Hs0 : headerSent c0 = false) by reflexivity.
  (* body first *)
  destruct (set_body_value_fields v c0 Hv)
    as (cA & HA & _ & HbA & HsA & _ & HfA & HwA).
  destruct (set_status_fields code cA) as (cB & HB & HstB & HsB & _ & HfB & HwB & HB');
    [congruence | done |].
  rewrite HbA, Hcode, andb_true_r in HB'.
  (* status first *)
  destruct (set_status_fields code c0 Hs0 Hrange)
    as (cC & HC & HstC & HsC & HeC & HfC & HwC & _).
  destruct (set_body_value_fields v cC Hv)
    as (cD & HD & HstD & HbD & HsD & _ & HfD & HwD).
  rewrite HeC in HstD. cbn [orb] in HstD.
  assert (HhD : header cD !! "content-type" = type_header (body_type v)
                /\ header cD !! "content-length" = body_length v).
  { assert (HcC : cC = stamp code c0).
    { unfold set_status in HC.
      rewrite set_status_with_live in HC by done.
      change (truthy (body c0)) with false in HC. cbn [andb] in HC.
      by injection HC as <-. }
    rewrite set_body_value in HD by done. injection HD as <-.
    rewrite HeC. cbn [orb].
    destruct (stamp_fields code c0) as (_ & _ & _ & Hh & Hsent & _).
    apply describe_bare.
    - change (headerSent cC = false). exact HsC.
    - change (header cC !! "content-type" = None). by rewrite HcC, Hh.
    - change (header cC !! "content-length" = None). by rewrite HcC, Hh. }
  destruct HhD as [HtD HlD].
  rewrite HA, HC. cbn [mbind outcome_bind]. rewrite HB, HD.
  cbn [mbind outcome_bind].
  split; [| split; [| intros Hw0; split]].
  - intros Ht. rewrite Ht in HB'. by exists cB.
  - by exists cD.
  - destruct (respond_empty cB) as (c' & Hc' & Hg & _);
      [by rewrite HfB, HfA | congruence | congruence | done | by exists c'].
  - destruct (respond_empty cD) as (c' & Hc' & Hg & _);
      [by rewrite HfD, HfC | congruence | congruence | congruence | by exists c'].
Qed.

End Facts.

(** *** The claims at sample requests *)

Section Samples.

#[local] Existing Instance sample.

Lemma respond_leaves_alone_sample :
  respond (with_respond (VBool false) (fresh plain_request None))
  = Ok (with_respond (VBool false) (fresh plain_request None))
  /\ respond (with_res (res_end None) (fresh plain_request None))
     = Ok (with_res (res_end None) (fresh plain_request None))
  /\ respond (fresh plain_request (Some false))
     = Ok (fresh plain_request (Some false)).
Proof.
  split; [| split].
  - apply (proj1 (respond_leaves_alone
                    (with_respond (VBool false) (fresh plain_request None)))).
    reflexivity.
  - apply (proj2 (proj2 (respond_leaves_alone
                           (with_res (res_end None) (fresh plain_request None))))).
    reflexivity.
  - apply (proj1 (proj2 (respond_leaves_alone
                           (fresh plain_request (Some false))))).
    reflexivity.
Defined.

Lemma empty_status_drops_body_sample :
  exists c',
    (c ← set_body (VStr "hi") (fresh plain_request None); set_status 204 c)
    = Ok c'
    /\ body_gone c'.
Proof.
  apply (proj1 (empty_status_drops_body plain_request None 204 (VStr "hi")
                  eq_refl eq_refl)).
  reflexivity.
Defined.

(** C4 as stated fails: with the status assigned first, the facade keeps the
    body and its headers. *)
Lemma status_first_keeps_body :
  exists c',
    (c ← set_status 204 (fresh plain_request None); set_body (VStr "hi") c)
    = Ok c'
    /\ body c' = VStr "hi"
    /\ header c' !! "content-type" = Some "text/plain; charset=utf-8"
    /\ header c' !! "content-length" = Some "2".
Proof. eexists. repeat split; reflexivity. Qed.

(** One request through the whole: the pipeline runs, [respond] writes the
    body out. *)
Example request_answered :
  let out :=
    handleRequest (fun _ c => c)
      (fun c => Compose.composed [Compose.JFun outer; Compose.JFun answer_ok]
                  c (Compose.JData VUndefined))
      (createContext plain_request (new_ServerResponse None)) in
  status out = 200
  /\ header out !! "content-type" = Some "text/plain; charset=utf-8"
  /\ header out !! "content-length" = Some "2"
  /\ ended (res out) = [Some (PString "ok")]
  /\ finished (res out) = true.
Proof. repeat split. Qed.

End Samples.

End ApplicationFacts.

(** ** More about the composer *)

Module OnionFacts.

Import Compose Onion ComposeFacts.

Section Facts.

Context {C : Type}.
Implicit Types (s : state C) (p : prog C) (d next : action C).
Implicit Types (fn nx : jsval C) (rest : list (jsval C)).

(** *** Every index is entered at most once, and in rising order *)

Lemma ordered_set_context x s : ordered s -> ordered (set_context x s).
Proof. by intros Hs. Qed.

Lemma run_keeps_order next p :
  keeps_order next -> forall s, ordered s -> ordered (run next p s).2.
Proof.
  intros Hn. induction p as [c | k IH | c k IH | k IH]; intros s Hs; simpl.
  - exact Hs.
  - by apply IH.
  - by apply IH, ordered_set_context.
  - specialize (Hn s Hs). destruct (next s) as [r s']. by apply IH.
Qed.

Lemma ordered_refused i s : ordered s -> ordered (log (Refused i) s).
Proof. by intros Hs. Qed.

Lemma ordered_enter i s :
  index s < i -> ordered s -> ordered (set_index i s).
Proof.
  intros Hi [Hsort Hle]. split; [exact Hsort |]. simpl.
  eapply Forall_impl; [exact Hle |]. simpl. intros j Hj. lia.
Qed.

Lemma ordered_called i s :
  index s < i -> ordered s -> ordered (log (Called i) (set_index i s)).
Proof.
  intros Hi [Hsort Hle]. split; simpl.
  - apply SSorted_cons; [exact Hsort |].
    eapply Forall_impl; [exact Hle |]. simpl. intros j Hj. lia.
  - apply Forall_cons. split; [lia |].
    eapply Forall_impl; [exact Hle |]. simpl. intros j Hj. lia.
Qed.

Lemma guarded_invoke_keeps_order i fn next :
  keeps_order next -> keeps_order (guarded i (invoke i fn next)).
Proof.
  intros Hn s Hs. unfold guarded.
  destruct (Z.leb_spec i (index s)) as [Hle | Hlt]; simpl.
  { by apply ordered_refused. }
  unfold invoke. destruct (falsy fn); simpl.
  { by apply ordered_enter. }
  pose proof (ordered_called i s Hlt Hs) as Hs1.
  destruct fn as [v | f | l]; simpl; try exact Hs1.
  pose proof (run_keeps_order next f Hn _ Hs1) as Hr.
  by destruct (run next f (log (Called i) (set_index i s))).
Qed.

Lemma dispatch_beyond_keeps_order i : keeps_order (C:=C) (dispatch_beyond i).
Proof.
  intros s Hs. unfold dispatch_beyond, guarded.
  destruct (Z.leb_spec i (index s)) as [Hle | Hlt]; simpl.
  - by apply ordered_refused.
  - by apply ordered_enter.
Qed.

Lemma dispatch_keeps_order rest nx i : keeps_order (dispatch rest nx i).
Proof.
  revert i. induction rest as [| fn rest IH]; intros i;
    rewrite dispatch_unfold; apply guarded_invoke_keeps_order.
  - apply dispatch_beyond_keeps_order.
  - apply IH.
Qed.

(** **** Only the indices of the list and of the final [next] are entered *)

Lemma entered_bounds (lo hi : Z) (t h : list event) :
  Forall (fun ev => forall j, ev = Called j -> lo <= j <= hi) t ->
  Forall (fun j => lo <= j <= hi) (entered h) ->
  Forall (fun j => lo <= j <= hi) (entered (t ++ h)).
Proof.
  intros Ht Hh. induction Ht as [| ev t Hev _ IH]; [exact Hh |].
  destruct ev as [j | j]; simpl; [| exact IH].
  apply Forall_cons. split; [by apply Hev | exact IH].
Qed.

Lemma dispatch_beyond_confined (P : event -> Prop) i :
  P (Refused i) -> confined (C:=C) P (dispatch_beyond i).
Proof.
  intros HP. apply guarded_confined; [exact HP |].
  intros s. by exists [].
Qed.

Lemma dispatch_within rest nx i :
  confined (fun ev => forall j, ev = Called j ->
                        i <= j <= i + Z.of_nat (length rest))
    (dispatch rest nx i).
Proof.
  revert i. induction rest as [| fn rest IH]; intros i;
    rewrite dispatch_unfold; (apply guarded_confined; [done |]);
    apply invoke_confined.
  - intros j [= <-]. simpl. lia.
  - by apply dispatch_beyond_confined.
  - intros j [= <-]. simpl. lia.
  - intros s. destruct (IH (i + 1) s) as (t & Ht & HP).
    exists t. split; [exact Ht |].
    eapply Forall_impl; [exact HP |].
    intros ev Hev j Hj. specialize (Hev j Hj). simpl. lia.
Qed.

(** X1. In one invocation of the composed function, whatever the middleware
    do, the indices entered go strictly up from one entry to the next: no
    function is entered twice and none is entered after a later one. Every
    index entered is one of the list or, for the final [next], its length,
    and none is above where the cursor ends. *)
Theorem entered_once_in_order (fns : list (jsval C)) (ctx : C) (nx : jsval C) :
  StronglySorted Z.gt (entered (history (composed fns ctx nx).2))
  /\ Forall (fun j => 0 <= j <= Z.of_nat (length fns))
       (entered (history (composed fns ctx nx).2))
  /\ Forall (fun j => j <= index (composed fns ctx nx).2)
       (entered (history (composed fns ctx nx).2)).
Proof.
  unfold composed.
  assert (H0 : ordered (State (-1) ctx [])).
  { split; simpl; constructor. }
  destruct (dispatch_keeps_order fns nx 0 _ H0) as [Hsort Hle].
  destruct (dispatch_within fns nx 0 (State (-1) ctx [])) as (t & Ht & HP).
  split; [exact Hsort |]. split; [| exact Hle].
  rewrite Ht. apply entered_bounds; [exact HP | constructor].
Qed.

(** *** Chains of middleware that hand on *)

Lemma run_forwards next p s :
  forwards p ->
  exists x, run next p s =
            (Return (Awaitable (next (set_context x s)).1),
             (next (set_context x s)).2).
Proof.
  intros Hp. revert s.
  induction Hp as [| k _ IH | c k _ IH]; intros s; simpl.
  - exists (context s). replace (set_context (context s) s) with s
      by (by destruct s).
    by destruct (next s).
  - apply IH.
  - destruct (IH (set_context c s)) as (x & Hx). exists x. exact Hx.
Qed.

Lemma run_ends_with c next p s :
  ends_with c p ->
  exists x, run next p s = (c, set_context x s).
Proof.
  intros Hp. revert s.
  induction Hp as [| k _ IH | y k _ IH]; intros s; simpl.
  - exists (context s). by destruct s.
  - apply IH.
  - destruct (IH (set_context y s)) as (x & Hx). exists x. exact Hx.
Qed.

Lemma descending_snoc (i : Z) (n : nat) :
  descending (i + 1) n ++ [i] = descending i (S n).
Proof.
  induction n as [| n IH]; simpl.
  - by rewrite Z.add_0_r.
  - rewrite IH. simpl. f_equal. lia.
Qed.

(** After a run of forwarding middleware the dispatcher stands in front of
    the rest, with each of them entered once. *)
Lemma dispatch_forwards pre rest nx i s :
  Forall forwards_fn pre -> index s = i - 1 ->
  exists x,
    dispatch (pre ++ rest) nx i s =
    dispatch rest nx (i + Z.of_nat (length pre))
      (State (i + Z.of_nat (length pre) - 1) x
             (map Called (descending i (length pre)) ++ history s)).
Proof.
  intros Hpre. revert i s.
  induction Hpre as [| fn pre (f & -> & Hf) _ IH]; intros i s Hi.
  - exists (context s). simpl. rewrite Z.add_0_r, <- Hi. by destruct s.
  - change ((JFun f :: pre) ++ rest) with (JFun f :: (pre ++ rest)).
    rewrite dispatch_unfold, guarded_enter by lia. rewrite invoke_fun.
    destruct (run_forwards (dispatch (pre ++ rest) nx (i + 1)) f
                (log (Called i) (set_index i s)) Hf) as (x & ->).
    destruct (IH (i + 1) (set_context x (log (Called i) (set_index i s))))
      as (y & Hy); [simpl; lia |].
    exists y. rewrite Hy. cbn [length].
    replace (i + 1 + Z.of_nat (length pre))
      with (i + Z.of_nat (S (length pre))) by lia.
    rewrite <- descending_snoc, map_app, <- app_assoc.
    cbn [map app history log set_context set_index settle].
    match goal with
    | |- context [dispatch rest nx ?a ?b] => by destruct (dispatch rest nx a b)
    end.
Qed.

(** X2. When every middleware of the list hands on the promise of its one
    [next()] call and no final [next] is given, the pipeline resolves with
    undefined after entering each middleware once, in list order. When
    behind such middleware one completes without calling [next()], the
    pipeline's promise is that middleware's own result (its value, its
    promise, or a rejection with what it threw), and nothing behind it, the
    final [next] included, is entered. *)
Theorem chain_result (pre post : list (jsval C)) (f : prog C)
    (c : completion) (nx : jsval C) (ctx : C) :
  Forall forwards_fn pre ->
  (falsy nx = true ->
     (composed pre ctx nx).1 = Resolved VUndefined
     /\ history (composed pre ctx nx).2
        = map Called (descending 0 (length pre)))
  /\ (ends_with c f ->
        (composed (pre ++ JFun f :: post) ctx nx).1 = settle c
        /\ history (composed (pre ++ JFun f :: post) ctx nx).2
           = map Called (descending 0 (S (length pre)))).
Proof.
  intros Hpre. split.
  - intros Hnx. unfold composed.
    destruct (dispatch_forwards pre [] nx 0 (State (-1) ctx []) Hpre eq_refl)
      as (x & Hx).
    rewrite app_nil_r in Hx. rewrite Hx.
    rewrite dispatch_unfold, guarded_enter by (simpl; lia).
    unfold invoke. rewrite Hnx. simpl. by rewrite app_nil_r.
  - intros Hf. unfold composed.
    destruct (dispatch_forwards pre (JFun f :: post) nx 0 (State (-1) ctx [])
                Hpre eq_refl) as (x & ->).
    rewrite dispatch_unfold, guarded_enter by (simpl; lia).
    rewrite invoke_fun.
    match goal with
    | |- context [run ?n f ?s0] =>
        destruct (run_ends_with c n f s0 Hf) as (y & ->)
    end.
    simpl. by rewrite app_nil_r.
Qed.

End Facts.

(** *** At sample pipelines *)

Lemma pass_forwards : forwards pass.
Proof. apply forwards_next. Qed.

Lemma chain_result_sample :
  (composed [JFun pass; JFun pass] tt (JData VUndefined)).1 = Resolved VUndefined
  /\ (composed ([JFun pass; JFun pass] ++ JFun returns_done :: [JFun thrower])
        tt (JData VUndefined)).1
     = Resolved (VStr "done").
Proof.
  assert (Hpre : Forall forwards_fn [JFun pass; JFun pass]).
  { repeat constructor; exists pass; (split; [reflexivity | apply pass_forwards]). }
  split.
  - apply (proj1 (chain_result [JFun pass; JFun pass] [] returns_done
                    (Return (Plain (VStr "done"))) (JData VUndefined) tt Hpre)).
    reflexivity.
  - apply (proj2 (chain_result [JFun pass; JFun pass] [JFun thrower] returns_done
                    (Return (Plain (VStr "done"))) (JData VUndefined) tt Hpre)).
    apply ends_done.
Defined.

End OnionFacts.

(** ** More about the response facade *)

Module ResponseMoreFacts.

Import Response ResponseMore RequestFacts ResponseFacts.

Section Facts.

Context `{Collaborators}.

Implicit Types (c : ctx) (v : value) (code : Z).

(** *** The status setter *)


(** *** Once the headers are sent *)

Lemma set_type_sent type c : headerSent c = true -> set_type type c = c.
Proof.
  intros Hs. unfold set_type.
  destruct (getType type) as [t |]; [destruct (nonempty t) |];
    by rewrite ?set_sent, ?remove_sent.
Qed.

Lemma strip_sent c : headerSent c = true -> strip c = c.
Proof. intros Hs. unfold strip. by rewrite !(remove_sent _ c Hs). Qed.

Lemma describe_sent original v c :
  headerSent c = true -> res (describe original v c) = res c.
Proof.
  intros Hs.
  assert (Hs' : forall id, headerSent (with_stream_listeners id c) = true)
    by (intros; exact Hs).
  unfold describe, set_length.
  destruct v;
    repeat match goal with
           | |- context [if ?b then _ else _] => destruct b
           end;
    repeat first
      [ rewrite remove_sent by (assumption || apply Hs')
      | rewrite set_type_sent by (assumption || apply Hs')
      | rewrite set_sent by (assumption || apply Hs') ];
    reflexivity.
Qed.

Lemma set_body_sent v c :
  headerSent c = true -> exists c', set_body v c = Ok c' /\ res c' = res c.
Proof.
  intros Hs. destruct (nullish v) eqn:Hv.
  - rewrite set_body_nullish by done. rewrite Hs, orb_true_r.
    eexists. split; [reflexivity |]. by rewrite strip_sent.
  - rewrite set_body_value by done. rewrite Hs, orb_true_r.
    eexists. split; [reflexivity |]. by rewrite describe_sent.
Qed.

(** X5. Once the headers are sent, the raw response is out of the facade's
    reach: [set], [remove], the type and length setters and the status
    setter return the context as it is, and a body assignment or a
    [redirect] leaves the status code, the status message, every header and
    the flags of the raw response exactly as they were. *)
Theorem sent_headers_freeze_response c :
  headerSent c = true ->
  (forall field v, set field v c = c)
  /\ (forall field, remove field c = c)
  /\ (forall type, set_type type c = c)
  /\ (forall n, set_length n c = c)
  /\ (forall code, set_status code c = Ok c)
  /\ (forall v, exists c', set_body v c = Ok c' /\ res c' = res c)
  /\ (forall url alt, exists c', redirect url alt c = Ok c' /\ res c' = res c).
Proof.
  intros Hs. repeat split.
  - intros. by apply set_sent.
  - intros. by apply remove_sent.
  - intros. by apply set_type_sent.
  - intros. by apply set_sent.
  - intros. by apply set_status_with_sent.
  - intros. by apply set_body_sent.
  - intros url alt. unfold redirect.
    set (u := if String.eqb "back" url then _ else url).
    rewrite (set_sent "Location") by done.
    replace (if statuses_redirect (status c) then Ok c else set_status 302 c)
      with (Ok c)
      by (destruct (statuses_redirect (status c));
            [done | by rewrite set_status_unfold, set_status_with_sent]).
    cbn [mbind outcome_bind].
    rewrite !set_type_sent by done.
    destruct (present (ctx_accepts "html" c)); by apply set_body_sent.
Qed.

(** *** Headers in and out *)



(** *** What a body leaves in the headers *)

Lemma promoted_live v c :
  headerSent c = false ->
  headerSent (if _explicitStatus c || headerSent c then with_body v c
              else stamp 200 (with_body v c)) = false.
Proof.
  intros Hs. destruct (promoted_fields v c) as (_ & _ & -> & _). exact Hs.
Qed.

(** X8. With the headers not yet sent, a string body leaves a
    Content-Length that is the decimal byte length of the string, and a
    buffer body one that is the number of its bytes. *)
Theorem body_sets_length (s : string) (bytes : list Byte.byte) c :
  headerSent c = false ->
  (exists c', set_body (VStr s) c = Ok c'
     /\ header c' !! "content-length" = Some (pretty (byteLength s)))
  /\ (exists c', set_body (VBuffer bytes) c = Ok c'
        /\ header c' !! "content-length"
           = Some (pretty (Z.of_nat (length bytes)))).
Proof.
  intros Hs. split; rewrite set_body_value by done;
    (eexists; split; [reflexivity |]); unfold describe, set_length;
    match goal with
    | |- header (set _ (VNum ?n) ?x) !! _ = _ =>
        apply (lookup_set_live "Content-Length" (VNum n) x)
    end;
    match goal with
    | |- headerSent (if ?b then set_type ?t ?x else ?x) = false =>
        assert (Hx : headerSent x = false) by (by apply promoted_live);
        destruct b; [| exact Hx];
        destruct (set_type_same' t x) as (_ & _ & _ & -> & _); exact Hx
    end.
Qed.

(** X9. With the headers not yet sent, a body that is neither null nor a
    string, a buffer or a stream (a boolean, a number, an object) always
    gets the Content-Type of [json], also over a Content-Type that was set
    before, and loses any Content-Length. *)
Theorem json_body_overrides_type v c :
  headerSent c = false -> json_body v = true ->
  exists c', set_body v c = Ok c'
    /\ header c' !! "content-type" = type_header "json"
    /\ header c' !! "content-length" = None.
Proof.
  intros Hs Hv.
  assert (Hn : nullish v = false) by (by destruct v).
  rewrite set_body_value by done. eexists. split; [reflexivity |].
  pose proof (promoted_live v c Hs) as Hx.
  set (x := if _explicitStatus c || headerSent c then with_body v c
            else stamp 200 (with_body v c)) in *.
  assert (Hd : describe (_body c) v x = set_type "json" (remove "Content-Length" x))
    by (by destruct v).
  rewrite Hd.
  assert (Hr : headerSent (remove "Content-Length" x) = false).
  { destruct (same_remove "Content-Length" x x (same_but_headers_refl x))
      as (_ & _ & _ & -> & _). exact Hx. }
  split.
  - by apply lookup_set_type_live.
  - rewrite lookup_set_type_ne by done.
    by apply (lookup_remove_live "Content-Length").
Qed.

(** X10. With the headers not yet sent, a stream body is registered for
    clean-up when the response finishes and for error forwarding; it keeps
    a Content-Type that was set and otherwise gets that of [bin]; and the
    Content-Length goes when the stream replaces a different non-null body,
    and stays when the previous body was null or this same stream. *)
Theorem stream_body_headers (id : nat) c :
  headerSent c = false ->
  exists c', set_body (VStream id) c = Ok c'
    /\ finish_listeners c' = finish_listeners c ++ [id]
    /\ error_handlers c' = error_handlers c ++ [id]
    /\ header c' !! "content-type"
       = (if present (header c !! "content-type")
          then header c !! "content-type" else type_header "bin")
    /\ header c' !! "content-length"
       = (if negb (nullish (_body c)) && differs_from_stream (_body c) id
          then None else header c !! "content-length").
Proof.
  intros Hs. rewrite set_body_value by done. eexists. split; [reflexivity |].
  pose proof (promoted_live (VStream id) c Hs) as Hx.
  destruct (promoted_fields (VStream id) c) as (_ & Hh & _).
  set (x := if _explicitStatus c || headerSent c then with_body (VStream id) c
            else stamp 200 (with_body (VStream id) c)) in *.
  assert (Hl : finish_listeners x = finish_listeners c
               /\ error_handlers x = error_handlers c).
  { subst x. destruct (_explicitStatus c || headerSent c); [done |].
    unfold stamp. simpl. by destruct (httpVersionMajor (req c) <? 2). }
  destruct Hl as [Hfl Hel].
  unfold describe.
  set (y := with_stream_listeners id x).
  assert (Hy : headerSent y = false /\ header y = header c
               /\ finish_listeners y = finish_listeners c ++ [id]
               /\ error_handlers y = error_handlers c ++ [id]).
  { subst y. simpl. by rewrite Hfl, Hel. }
  destruct Hy as (Hys & Hyh & Hyf & Hye).
  rewrite Hh.
  set (z := if negb (nullish (_body c)) && differs_from_stream (_body c) id
            then remove "Content-Length" y else y).
  assert (Hz : headerSent z = false
               /\ finish_listeners z = finish_listeners c ++ [id]
               /\ error_handlers z = error_handlers c ++ [id]
               /\ header z !! "content-type" = header c !! "content-type"
               /\ header z !! "content-length"
                  = (if negb (nullish (_body c))
                        && differs_from_stream (_body c) id
                     then None else header c !! "content-length")).
  { subst z.
    destruct (negb (nullish (_body c)) && differs_from_stream (_body c) id).
    - rewrite lookup_remove_ne, (lookup_remove_live "Content-Length") by done.
      rewrite (remove_live "Content-Length" y Hys), Hyh.
      by repeat split.
    - by rewrite Hyh. }
  destruct Hz as (Hzs & Hzf & Hze & Hzt & Hzl).
  destruct (present (header c !! "content-type")) eqn:Hp; cbn [negb].
  - by repeat split.
  - assert (Hkeep : finish_listeners (set_type "bin" z) = finish_listeners z
                    /\ error_handlers (set_type "bin" z) = error_handlers z).
    { unfold set_type, set, remove. rewrite Hzs.
      destruct (getType "bin") as [t |]; [destruct (nonempty t) |]; done. }
    destruct Hkeep as [-> ->].
    rewrite lookup_set_type_live, lookup_set_type_ne by done.
    by repeat split.
Qed.

(** *** The status setter *)

Lemma message_remove field c : message (remove field c) = message c.
Proof. unfold remove. by destruct (headerSent c). Qed.

Lemma message_strip c : message (strip c) = message c.
Proof. unfold strip. by rewrite !message_remove. Qed.

Lemma message_stamp code c :
  httpVersionMajor (req c) < 2 -> message (stamp code c) = statuses_message code.
Proof.
  intros Hv. apply Z.ltb_lt in Hv. unfold stamp. simpl. rewrite Hv.
  unfold message. simpl.
  by destruct (present (statuses_message code)).
Qed.

(** X11. With the headers not yet sent, below HTTP/2, the message of the
    response after a status assignment is the reason phrase the statuses
    table has for the new code, never the phrase of the code before. A
    message assigned by hand is what [message] returns, unless it is empty:
    then the table's phrase for the current code is. *)
Theorem message_follows_status code (msg : string) c :
  (headerSent c = false -> 100 <= code <= 999 ->
   httpVersionMajor (req c) < 2 ->
     exists c', set_status code c = Ok c'
       /\ message c' = statuses_message code)
  /\ message (set_message msg c)
     = (if nonempty msg then Some msg else statuses_message (status c)).
Proof.
  split; [| reflexivity].
  intros Hs Hcode Hv. unfold set_status.
  rewrite set_status_with_live by done.
  destruct (truthy (body c) && statuses_empty code) eqn:Hb.
  - apply andb_true_iff in Hb as [_ He].
    rewrite set_body_nullish by done. eexists. split; [reflexivity |].
    rewrite message_strip.
    destruct (stamp_fields code c) as (-> & _). rewrite He. cbn [orb].
    change (message (with_body VNull (stamp code c)))
      with (message (stamp code c)).
    by apply message_stamp.
  - eexists. split; [reflexivity |]. by apply message_stamp.
Qed.

(** *** [redirect] to a given URL *)

Lemma redirect_unfold (url : string) alt c :
  redirect url alt c =
  let u := if String.eqb "back" url
           then or_else (Some (ctx_get "Referrer" c)) (or_else alt "/")
           else url in
  let c1 := set "Location" (VStr u) c in
  match (if statuses_redirect (status c1) then Ok c1 else set_status 302 c1) with
  | Ok c2 =>
      if present (ctx_accepts "html" c2)
      then set_body (VStr (html_notice (escape u)))
             (set_type "text/html; charset=utf-8" c2)
      else set_body (VStr (text_notice u))
             (set_type "text/plain; charset=utf-8" c2)
  | Thrown e => Thrown e
  end.
Proof. reflexivity. Qed.

(** X12. With the headers not yet sent, [redirect(url)] for a URL other
    than ["back"] sets Location to that URL as given, not escaped; the body
    is the HTML notice around the escaped URL when the client accepts html
    and the plain-text notice with the URL as given when it does not. *)
Theorem redirect_to_url (url : string) (alt : option string) c :
  headerSent c = false -> String.eqb "back" url = false ->
  exists c', redirect url alt c = Ok c'
    /\ header c' !! "location" = Some url
    /\ body c' = VStr (if present (ctx_accepts "html" c)
                       then html_notice (escape url) else text_notice url).
Proof.
  intros Hs Hurl. rewrite redirect_unfold, Hurl. cbv zeta.
  set (c1 := set "Location" (VStr url) c).
  assert (H1 : header c1 !! "location" = Some url /\ same_but_headers c c1).
  { split; [by apply (lookup_set_live "Location" (VStr url))
           | by apply same_set, same_but_headers_refl]. }
  destruct H1 as (Hl1 & _ & _ & _ & Hs1 & Hr1 & _).
  assert (H2 : exists c2,
    (if statuses_redirect (status c1) then Ok c1 else set_status 302 c1) = Ok c2
    /\ header c2 = header c1 /\ headerSent c2 = false /\ req c2 = req c).
  { destruct (statuses_redirect (status c1)).
    - exists c1. repeat split; congruence.
    - exists (stamp 302 c1). unfold set_status.
      rewrite set_status_with_live by (lia || congruence).
      rewrite andb_false_r.
      destruct (stamp_fields 302 c1) as (_ & _ & _ & ? & ? & ? & _).
      repeat split; congruence. }
  destruct H2 as (c2 & -> & Hh2 & Hs2 & Hr2).
  replace (present (ctx_accepts "html" c2))
    with (present (ctx_accepts "html" c))
    by (unfold ctx_accepts, Request.accepts; by rewrite Hr2).
  assert (Hfin : forall type n,
    exists c', set_body (VStr n) (set_type type c2) = Ok c'
      /\ header c' !! "location" = Some url /\ body c' = VStr n).
  { intros type n. rewrite set_body_value by done. eexists.
    split; [reflexivity |].
    destruct (promoted_fields (VStr n) (set_type type c2))
      as (_ & Hh & _ & _ & Hb & _).
    set (x := if _explicitStatus (set_type type c2)
                 || headerSent (set_type type c2)
              then with_body (VStr n) (set_type type c2)
              else stamp 200 (with_body (VStr n) (set_type type c2))) in *.
    destruct (describe_same (_body (set_type type c2)) (VStr n) x)
      as (_ & -> & _).
    rewrite lookup_describe_string_ne, Hh, lookup_set_type_ne by done.
    rewrite Hh2. by split. }
  destruct (present (ctx_accepts "html" c)); apply Hfin.
Qed.

(** *** The type without its parameters *)

Lemma before_semicolon_clean (s : string) :
  no_semicolon (before_semicolon s) = true.
Proof.
  induction s as [| x s IH]; simpl; [reflexivity |].
  destruct (nat_of_ascii x =? 59)%nat eqn:Hx; simpl; [reflexivity |].
  by rewrite Hx, IH.
Qed.

Lemma before_semicolon_prefix (s : string) :
  String.prefix (before_semicolon s) s = true.
Proof.
  induction s as [| x s IH]; simpl; [reflexivity |].
  destruct (nat_of_ascii x =? 59)%nat; simpl; [reflexivity |].
  rewrite IH. by destruct (ascii_dec x x).
Qed.

Lemma before_semicolon_split (s : string) :
  exists rest, s = before_semicolon s +:+ rest
    /\ (rest = "" \/ String.prefix ";" rest = true).
Proof.
  induction s as [| x s IH]; simpl.
  - exists "". by split; [| left].
  - destruct (nat_of_ascii x =? 59)%nat eqn:Hx.
    + exists (String x s). split; [by rewrite append_nil_l | right].
      apply Nat.eqb_eq in Hx.
      assert (Hsemi : x = ";"%char).
      { rewrite <- (ascii_nat_embedding x), Hx. reflexivity. }
      subst x. cbn [String.prefix].
      destruct (ascii_dec ";" ";"); [by destruct s | done].
    + destruct IH as (rest & Hrest & Hr). exists rest.
      split; [| exact Hr]. rewrite append_cons. by rewrite <- Hrest.
Qed.

(** X13. The type [get type] returns is the Content-Type header up to its
    first [;]: the header is the type followed by nothing or by a rest that
    starts with [;], and the type holds no [;]. It is the empty string when
    the header is absent. *)
Theorem type_without_parameters c :
  no_semicolon (get_type c) = true
  /\ (exists rest, get "Content-Type" c = get_type c +:+ rest
        /\ (rest = "" \/ String.prefix ";" rest = true))
  /\ String.prefix (get_type c) (get "Content-Type" c) = true
  /\ (header c !! "content-type" = None -> get_type c = "").
Proof.
  unfold get_type. split; [| split; [| split]].
  - destruct (nonempty (get "Content-Type" c));
      [apply before_semicolon_clean | reflexivity].
  - destruct (nonempty (get "Content-Type" c)) eqn:Hn;
      [apply before_semicolon_split |].
    exists "". split; [| by left].
    by destruct (get "Content-Type" c).
  - destruct (nonempty (get "Content-Type" c));
      [apply before_semicolon_prefix | by destruct (get "Content-Type" c)].
  - intros Hh. unfold get.
    change (toLowerCase "Content-Type") with "content-type". by rewrite Hh.
Qed.

End Facts.

Section Samples.

#[local] Existing Instance sample.

Lemma sent_headers_freeze_response_sample :
  set_status 500 (flushHeaders (Application.fresh plain_request None))
  = Ok (flushHeaders (Application.fresh plain_request None)).
Proof.
  destruct (sent_headers_freeze_response
              (flushHeaders (Application.fresh plain_request None)) eq_refl)
    as (_ & _ & _ & _ & Hst & _).
  apply Hst.
Defined.




Lemma body_sets_length_sample :
  exists c', set_body (VStr "hello") (Application.fresh plain_request None)
             = Ok c'
    /\ header c' !! "content-length" = Some "5".
Proof.
  destruct (body_sets_length "hello" []
              (Application.fresh plain_request None) eq_refl) as (Hstr & _).
  exact Hstr.
Defined.

Lemma json_body_overrides_type_sample :
  exists c', set_body (VObject 0) (Application.fresh plain_request None)
             = Ok c'
    /\ header c' !! "content-type" = Some "application/json; charset=utf-8"
    /\ header c' !! "content-length" = None.
Proof.
  exact (json_body_overrides_type (VObject 0)
           (Application.fresh plain_request None) eq_refl eq_refl).
Defined.

Lemma stream_body_headers_sample :
  exists c', set_body (VStream 7) (Application.fresh plain_request None)
             = Ok c'
    /\ finish_listeners c' = [7%nat]
    /\ error_handlers c' = [7%nat]
    /\ header c' !! "content-type" = Some "application/octet-stream"
    /\ header c' !! "content-length" = None.
Proof.
  exact (stream_body_headers 7 (Application.fresh plain_request None) eq_refl).
Defined.

Lemma message_follows_status_sample :
  exists c', set_status 204 (Application.fresh plain_request None) = Ok c'
    /\ message c' = Some "No Content".
Proof.
  destruct (message_follows_status 204 ""
              (Application.fresh plain_request None)) as (Hm & _).
  apply Hm; [reflexivity | lia | reflexivity].
Defined.

Lemma redirect_to_url_sample :
  exists c', redirect "/login" None (Application.fresh referred_request None)
             = Ok c'
    /\ header c' !! "location" = Some "/login"
    /\ body c' = VStr (html_notice "/login").
Proof.
  exact (redirect_to_url "/login" None
           (Application.fresh referred_request None) eq_refl eq_refl).
Defined.

End Samples.

End ResponseMoreFacts.

(** ** The finalizer and the request handler, further *)

Module ApplicationMoreFacts.

Import Compose Response Application ApplicationMore.
Import ResponseMore ResponseFacts ResponseMoreFacts ApplicationFacts.

Section Facts.

Context `{Collaborators}.

Implicit Types (c : ctx) (v : value) (code : Z).

Lemma stamp_ended code c : ended (res (stamp code c)) = ended (res c).
Proof. unfold stamp. simpl. by destruct (httpVersionMajor (req c) <? 2). Qed.

Lemma set_body_null_ended c :
  exists c', set_body VNull c = Ok c' /\ ended (res c') = ended (res c).
Proof.
  rewrite set_body_nullish by done. eexists. split; [reflexivity |].
  match goal with
  | |- ended (res (strip ?x)) = _ =>
      destruct (strip_same x) as (_ & _ & _ & _ & _ & _ & _ & -> & _)
  end.
  destruct (statuses_empty (status c) || headerSent c); [reflexivity |].
  by rewrite stamp_ended.
Qed.

Lemma set_length_ended n c : ended (res (set_length n c)) = ended (res c).
Proof.
  by destruct (same_set_length n c c (same_but_headers_refl c))
    as (_ & _ & _ & _ & _ & _ & _ & -> & _).
Qed.

Lemma set_type_ended type c : ended (res (set_type type c)) = ended (res c).
Proof.
  by destruct (set_type_same' type c) as (_ & _ & _ & _ & _ & _ & _ & -> & _).
Qed.

Lemma respond_ended data c :
  respond (with_res (res_end data) c) = Ok (with_res (res_end data) c).
Proof. by apply respond_unwritable, finished_not_writable. Qed.

(** What [respond] does when it is neither bypassed nor faced with an
    unwritable response, and [JSON.stringify] has a text for the body where
    it is asked for one: one [end], reached with the headers possibly
    adjusted, or one [pipe] of the body. *)
Lemma respond_shape c :
  is_false (respond_flag c) = false -> writable c = true ->
  (json_body (body c) = true \/ isJSON (body c) = true ->
   exists text, JSON_stringify (body c) = Ok (Some text)) ->
  (exists x data, respond c = Ok (with_res (res_end data) x)
     /\ ended (res x) = ended (res c))
  \/ (exists id, body c = VStream id
        /\ respond c = Ok (with_res (res_pipe id) c)).
Proof.
  intros Hf Hw Hjson. unfold respond.
  rewrite Hf. unfold ctx_writable, ctx_status, ctx_body, ctx_set_body,
    ctx_set_length, ctx_set_type.
  rewrite Hw. cbn [negb].
  destruct (statuses_empty (status c)).
  { left. destruct (set_body_null_ended c) as (c1 & -> & He).
    by exists c1, None. }
  destruct (String.eqb "HEAD" (ctx_method c)).
  { left. destruct (negb (headersSent (res c)) && isJSON (body c)) eqn:Hj.
    - apply andb_true_iff in Hj as [_ Hj].
      destruct (Hjson (or_intror Hj)) as (text & ->).
      cbn [mbind outcome_bind byteLength_of].
      eexists _, None. split; [reflexivity | apply set_length_ended].
    - by eexists _, None. }
  destruct (nullish (body c)) eqn:Hn.
  { left. eexists _, _. split; [reflexivity |].
    destruct (negb (headersSent (res c))); [| reflexivity].
    by rewrite set_length_ended, set_type_ended. }
  destruct (body c) eqn:Hb; try discriminate Hn;
    try (left; by eexists _, _);
    try (right; by eexists);
    (destruct (Hjson (or_introl eq_refl)) as (text & ->);
     cbn [mbind outcome_bind byteLength_of];
     left; destruct (negb (headersSent (res c)));
     cbn [mbind outcome_bind]; eexists _, _;
     (split; [reflexivity |]); [apply set_length_ended | reflexivity]).
Qed.

Lemma respond_on c :
  is_false (respond_flag c) = false -> writable c = true ->
  (json_body (body c) = true \/ isJSON (body c) = true ->
   exists text, JSON_stringify (body c) = Ok (Some text)) ->
  exists c', respond c = Ok c'
    /\ ((exists data, ended (res c') = ended (res c) ++ [data]
           /\ finished (res c') = true
           /\ respond c' = Ok c')
        \/ (exists id, body c = VStream id
              /\ res c' = res_pipe id (res c))).
Proof.
  intros Hf Hw Hjson.
  destruct (respond_shape c Hf Hw Hjson)
    as [(x & data & -> & He) | (id & Hb & ->)].
  - eexists. split; [reflexivity |]. left. exists data.
    split; [| split; [reflexivity | apply respond_ended]].
    simpl. by rewrite He.
  - eexists. split; [reflexivity |]. right. by exists id.
Qed.

(** Where the JSON text of the body is written out, [respond] throws what
    [JSON.stringify] throws, and what [Buffer.byteLength] throws when the
    text is [undefined] and the length is still to be set. *)
Lemma respond_json_fails c :
  is_false (respond_flag c) = false -> writable c = true ->
  statuses_empty (status c) = false ->
  String.eqb "HEAD" (ctx_method c) = false ->
  json_body (body c) = true ->
  (forall e, JSON_stringify (body c) = Thrown e -> respond c = Thrown e)
  /\ (JSON_stringify (body c) = Ok None -> headerSent c = false ->
      respond c = Thrown byteLength_undefined).
Proof.
  intros Hf Hw He Hm Hj. unfold respond.
  rewrite Hf. unfold ctx_writable, ctx_status, ctx_body.
  rewrite Hw, He, Hm. cbn [negb].
  assert (Hn : nullish (body c) = false) by (by destruct (body c)).
  rewrite Hn.
  split.
  - intros e Hthrow. destruct (body c); try discriminate Hj;
      by rewrite Hthrow.
  - intros Hnone Hs.
    change (headersSent (res c)) with (headerSent c). rewrite Hs.
    destruct (body c); try discriminate Hj; by rewrite Hnone.
Qed.

(** X14. When [respond] is not bypassed and the response is writable: if
    [JSON.stringify] returns a text for the body wherever [respond] asks
    for one (for a body that is none of null, a string, a buffer or a
    stream, and under HEAD for a body that [isJSON] accepts), [respond]
    either ends the response exactly once, after which the response is
    finished and a second [respond] changes nothing, or, for a stream body
    only, pipes the stream into the response without ending it. Under a
    status that allows a body and a method other than HEAD, for a body that
    is none of null, a string, a buffer or a stream, [respond] throws what
    [JSON.stringify] throws, and when [JSON.stringify] returns [undefined]
    with the headers not yet sent it throws what [Buffer.byteLength] throws
    for [undefined]. *)
Theorem respond_answers_once c :
  is_false (respond_flag c) = false -> writable c = true ->
  ((json_body (body c) = true \/ isJSON (body c) = true ->
    exists text, JSON_stringify (body c) = Ok (Some text)) ->
   exists c', respond c = Ok c'
     /\ ((exists data, ended (res c') = ended (res c) ++ [data]
            /\ finished (res c') = true
            /\ respond c' = Ok c')
         \/ (exists id, body c = VStream id
               /\ res c' = res_pipe id (res c))))
  /\ (statuses_empty (status c) = false ->
      String.eqb "HEAD" (ctx_method c) = false ->
      json_body (body c) = true ->
      (forall e, JSON_stringify (body c) = Thrown e -> respond c = Thrown e)
      /\ (JSON_stringify (body c) = Ok None -> headerSent c = false ->
          respond c = Thrown byteLength_undefined)).
Proof.
  intros Hf Hw. split.
  - by apply respond_on.
  - by apply respond_json_fails.
Qed.

(** X15. A response without a body, under a status that allows one and a
    method other than HEAD, is answered with a text: the decimal status code
    under HTTP/2 and later, and below that the message of the response or,
    when there is none, the decimal code. With the headers not yet sent its
    Content-Type is that of [text] and its Content-Length the byte length of
    the text; the status stays. *)
Theorem status_only_response c :
  is_false (respond_flag c) = false -> writable c = true ->
  statuses_empty (status c) = false ->
  String.eqb "HEAD" (ctx_method c) = false ->
  nullish (body c) = true -> headerSent c = false ->
  exists c',
    let text := if 2 <=? httpVersionMajor (req c) then pretty (status c)
                else or_else (message c) (pretty (status c)) in
    respond c = Ok c'
    /\ ended (res c') = ended (res c) ++ [Some (PString text)]
    /\ header c' !! "content-type" = type_header "text"
    /\ header c' !! "content-length" = Some (pretty (byteLength text))
    /\ status c' = status c.
Proof.
  intros Hf Hw He Hm Hn Hs. unfold respond.
  rewrite Hf. unfold ctx_writable, ctx_status, ctx_body, ctx_set_body,
    ctx_set_length, ctx_set_type, ctx_message.
  rewrite Hw, He, Hm, Hn. cbn [negb]. cbv zeta.
  change (headersSent (res c)) with (headerSent c). rewrite Hs. cbn [negb].
  eexists. split; [reflexivity |].
  set (text := if 2 <=? httpVersionMajor (req c) then pretty (status c)
               else or_else (message c) (pretty (status c))).
  assert (Ht : headerSent (set_type "text" c) = false).
  { destruct (set_type_same' "text" c) as (_ & _ & _ & -> & _). exact Hs. }
  pose proof (same_set_length (byteLength text) c _ (set_type_same' "text" c))
    as (Hst & _ & _ & _ & _ & _ & _ & Hen & _).
  repeat split.
  - simpl. by rewrite Hen.
  - change (header (set_length (byteLength text) (set_type "text" c))
              !! "content-type" = type_header "text").
    rewrite lookup_set_length_ne by done. by apply lookup_set_type_live.
  - change (header (set_length (byteLength text) (set_type "text" c))
              !! "content-length" = Some (pretty (byteLength text))).
    by apply (lookup_set_live "Content-Length" (VNum (byteLength text))).
  - exact Hst.
Qed.

Section Use.

Variable isGeneratorFunction : prog ctx -> bool.
Variable convert : prog ctx -> prog ctx.

Lemma use_function fn app :
  is_function fn = true ->
  exists fn',
    use isGeneratorFunction convert fn app
    = Ok (mkApp (middleware app ++ [fn']))
    /\ is_function fn' = true.
Proof.
  intros Hfn. unfold ApplicationMore.use. rewrite Hfn. cbn [negb].
  eexists. split; [reflexivity |].
  destruct fn as [v | f | l]; try discriminate Hfn.
  by destruct (isGeneratorFunction f).
Qed.

Lemma use_all_functions fns app :
  forallb is_function fns = true ->
  forallb is_function (middleware app) = true ->
  exists app', use_all isGeneratorFunction convert fns app = Ok app'
    /\ forallb is_function (middleware app') = true
    /\ length (middleware app') = (length (middleware app) + length fns)%nat.
Proof.
  revert app. induction fns as [| fn fns IH]; intros app Hfns Happ.
  - exists app. simpl. split; [reflexivity |]. split; [exact Happ | lia].
  - simpl in Hfns. apply andb_true_iff in Hfns as [Hfn Hfns].
    destruct (use_function fn app Hfn) as (fn' & Huse & Hfn').
    cbn [ApplicationMore.use_all]. rewrite Huse. cbn [mbind outcome_bind].
    destruct (IH (mkApp (middleware app ++ [fn'])) Hfns)
      as (app' & -> & Hall & Hlen).
    { simpl. rewrite forallb_app, Happ. simpl. by rewrite Hfn'. }
    exists app'. split; [reflexivity |]. split; [exact Hall |].
    rewrite Hlen. simpl. rewrite length_app. simpl. lia.
Qed.

Lemma use_all_rejects fns app :
  forallb is_function fns = false ->
  use_all isGeneratorFunction convert fns app
  = Thrown (TypeError "middleware must be a function!").
Proof.
  revert app. induction fns as [| fn fns IH]; intros app Hfns;
    [discriminate Hfns |].
  simpl in Hfns. cbn [ApplicationMore.use_all].
  destruct (is_function fn) eqn:Hfn.
  - destruct (use_function fn app Hfn) as (fn' & -> & _).
    cbn [mbind outcome_bind]. by apply IH.
  - unfold ApplicationMore.use. by rewrite Hfn.
Qed.

(** X17. [use] keeps the middleware list made of functions: a chain of
    [use] calls on a new application goes through exactly when every
    argument is a function, it then holds one middleware per call, and
    [callback] on it returns a request handler, so that the checks of
    [compose] never fail there; with an argument that is not a function
    the chain throws the TypeError of [use]. *)
Theorem used_middleware_composes (onerror : value -> ctx -> ctx)
    (fns : list (jsval ctx)) :
  (forallb is_function fns = true ->
     exists app handler,
       use_all isGeneratorFunction convert fns new_application = Ok app
       /\ length (middleware app) = length fns
       /\ callback onerror app = inr handler)
  /\ (forallb is_function fns = false ->
        use_all isGeneratorFunction convert fns new_application
        = Thrown (TypeError "middleware must be a function!")).
Proof.
  split; [| apply use_all_rejects].
  intros Hfns.
  destruct (use_all_functions fns new_application Hfns eq_refl)
    as (app & Happ & Hall & Hlen).
  exists app.
  assert (Hc : compose (JArr (middleware app)) = inr (composed (middleware app))).
  { unfold compose. by rewrite Hall. }
  unfold callback. rewrite Hc. eexists. by repeat split.
Qed.

End Use.

End Facts.

Section Samples.

#[local] Existing Instance sample.

Lemma respond_answers_once_sample :
  exists c', respond (fresh plain_request None) = Ok c'
    /\ ((exists data, ended (res c') = [data]
           /\ finished (res c') = true
           /\ respond c' = Ok c')
        \/ (exists id, body (fresh plain_request None) = VStream id
              /\ res c' = res_pipe id (res (fresh plain_request None)))).
Proof.
  destruct (respond_answers_once (fresh plain_request None) eq_refl eq_refl)
    as [Hon _].
  apply Hon. intros _. by eexists.
Defined.


Lemma status_only_response_sample :
  exists c', respond (fresh plain_request None) = Ok c'
    /\ ended (res c') = [Some (PString "Not Found")]
    /\ header c' !! "content-type" = Some "text/plain; charset=utf-8"
    /\ header c' !! "content-length" = Some "9"
    /\ status c' = 404.
Proof.
  exact (status_only_response (fresh plain_request None)
           eq_refl eq_refl eq_refl eq_refl eq_refl eq_refl).
Defined.

Lemma used_middleware_composes_sample :
  exists app handler,
    use_all (fun _ => false) (fun f => f) [JFun outer; JFun answer_ok]
      new_application = Ok app
    /\ length (middleware app) = 2%nat
    /\ callback (fun _ c => c) app = inr handler.
Proof.
  destruct (used_middleware_composes (fun _ => false) (fun f => f)
              (fun _ c => c) [JFun outer; JFun answer_ok]) as [Hok _].
  exact (Hok eq_refl).
Defined.

End Samples.

End ApplicationMoreFacts.

(** ** The request facade, further *)

Module RequestMoreFacts.

Import Request RequestMore RequestFacts.




(** *** The first item of a list header *)





Section Proxy.

Implicit Types (c : ctx) (proxy encrypted : bool).

Lemma get_with_req_header (name val field : string) c :
  toLowerCase field <> name ->
  toLowerCase field <> "referer" -> toLowerCase field <> "referrer" ->
  name <> "referer" -> name <> "referrer" ->
  get field (with_req_header name val c) = get field c.
Proof.
  intros Hf Hr1 Hr2 Hn1 Hn2. unfold get.
  destruct (String.eqb_spec (toLowerCase field) "referer") as [| _]; [done |].
  destruct (String.eqb_spec (toLowerCase field) "referrer") as [| _]; [done |].
  cbn [orb]. unfold with_req_header. cbn [req req_headers].
  by rewrite lookup_insert_ne.
Qed.

(** X19. Without [app.proxy], what a client writes into X-Forwarded-Host,
    X-Forwarded-Proto or X-Forwarded-For changes nothing: [host], [protocol]
    and [secure] are what they are without the header, the protocol is
    [https] exactly on an encrypted socket and [http] otherwise. *)
Theorem forwarded_headers_need_proxy (name val : string) encrypted c :
  (name = "x-forwarded-host" \/ name = "x-forwarded-proto"
   \/ name = "x-forwarded-for" ->
     get_host false (with_req_header name val c) = get_host false c
     /\ get_protocol encrypted false (with_req_header name val c)
        = get_protocol encrypted false c)
  /\ get_protocol encrypted false c = (if encrypted then "https" else "http")
  /\ get_secure encrypted false c = encrypted.
Proof.
  split; [| split].
  - intros Hname. split.
    + unfold get_host.
      change (httpVersionMajor (req (with_req_header name val c)))
        with (httpVersionMajor (req c)).
      rewrite !(get_with_req_header name val) by
        (destruct Hname as [-> | [-> | ->]]; done).
      reflexivity.
    + reflexivity.
  - unfold get_protocol. by destruct encrypted.
  - unfold get_secure, get_protocol. by destruct encrypted.
Qed.


(** X21. A request is fresh only when its method is GET or HEAD and the
    status of the response is 2xx or 304: every fresh request is idempotent,
    and a request with another method, or a response with another status, is
    stale whatever its validators say. *)
Theorem fresh_only_for_reads
    (fresh : gmap string string -> gmap string string -> bool) c :
  (get_fresh fresh c = true ->
     (ctx_method c = "GET" \/ ctx_method c = "HEAD")
     /\ (200 <= Response.status c < 300 \/ Response.status c = 304)
     /\ get_idempotent c = true)
  /\ (ctx_method c <> "GET" -> ctx_method c <> "HEAD" ->
        get_stale fresh c = true)
  /\ (~ (200 <= Response.status c < 300) -> Response.status c <> 304 ->
        get_stale fresh c = true).
Proof.
  unfold get_stale, get_fresh, get_idempotent, Application.ctx_status.
  cbn [existsb].
  destruct (String.eqb_spec "GET" (ctx_method c)) as [Hg | Hg];
    destruct (String.eqb_spec "HEAD" (ctx_method c)) as [Hh | Hh];
    cbn [negb andb];
    destruct (Z.leb_spec 200 (Response.status c));
    destruct (Z.ltb_spec (Response.status c) 300);
    destruct (Z.eqb_spec 304 (Response.status c));
    cbn [andb orb];
    (split; [intros Hf | split; [intros ? ? | intros ? ?]]);
    try discriminate; try congruence; try lia; try reflexivity;
    try (rewrite <- Hg); try (rewrite <- Hh);
    try (split; [auto | split; [lia | reflexivity]]).
Qed.

End Proxy.

Section Samples.

#[local] Existing Instance sample.


Lemma forwarded_headers_need_proxy_sample :
  get_host false
    (with_req_header "x-forwarded-host" "evil.example"
       (Application.fresh plain_request None))
  = get_host false (Application.fresh plain_request None).
Proof.
  destruct (forwarded_headers_need_proxy "x-forwarded-host" "evil.example"
              false (Application.fresh plain_request None)) as [Hh _].
  destruct (Hh (or_introl eq_refl)) as [Hhost _]. exact Hhost.
Defined.


Lemma fresh_only_for_reads_sample :
  get_stale (fun _ _ => true) (Application.fresh plain_request None) = true.
Proof.
  destruct (fresh_only_for_reads (fun _ _ => true)
              (Application.fresh plain_request None)) as (_ & _ & Hs).
  apply Hs.
  - change (~ (200 <= 404 < 300)). lia.
  - change (404 <> 304). lia.
Defined.

End Samples.

End RequestMoreFacts.
